(** * BNO055 driver (bno055.py): shallow embedding and verified properties

    The driver talks to a 9-axis orientation chip over an I2C register bus,
    keeps the chip's calibration coefficients in a flash file and publishes
    the measured heading from a cooperative generator task.

    Modelling choices:
    - the bus ([HAL.__IMU__.I2C]) is an external collaborator: it is an
      interface ([I2C]) over an abstract device state, every call may fail
      with an exception, and every call is recorded in the trace;
    - Python exceptions are the [Raised] outcome of a state-and-exception
      monad, [try]/[except] is [try_except];
    - the flash file system is a finite map from names to contents, and its
      operations are taken not to fail;
    - the unbounded [while] of the calibration wait takes fuel, and running
      out of it is the separate outcome [OutOfFuel];
    - the generator [task] is resumed by [gen_next], one loop iteration per
      resumption, with the suspension recorded as an [EvYield] event. *)

From Stdlib Require Import ZArith Lia List String.
From Stdlib Require Import Strings.Byte.
From stdpp Require Import gmap strings list fin_maps functions.

Import ListNotations.
Local Open Scope string_scope.
Local Open Scope list_scope.
Local Open Scope Z_scope.

(** ** Exceptions *)

Inductive exn : Type :=
| OSError (errno : Z)
| ValueError
| IndexError
| StopIteration
| KeyboardInterrupt.

(** [except OSError] *)
Definition is_OSError (e : exn) : bool :=
  match e with OSError _ => true | _ => false end.

(** [except Exception]: everything but the [BaseException]-only classes. *)
Definition is_Exception (e : exn) : bool :=
  match e with KeyboardInterrupt => false | _ => true end.

(** bare [except:] *)
Definition any_exn (e : exn) : bool := true.

(** ** The register bus *)

(** What one bus call answers: the value, or the exception it raises. *)
Inductive reply (A : Type) : Type :=
| Ack (a : A)
| Nak (e : exn).
Arguments Ack {A} a.
Arguments Nak {A} e.

(** [mem_write] takes either an integer (sent as one byte) or a buffer. *)
Inductive payload : Type :=
| PInt (v : Z)
| PBuf (bs : list byte).

(** [pyb.I2C]: [mem_read(n, addr, memaddr)] and [mem_write(data, addr,
    memaddr)], as transitions of the chip behind the bus. *)
Class I2C (Dev : Type) : Type := {
  mem_read : nat -> Z -> Z -> Dev -> reply (list byte) * Dev;
  mem_write : payload -> Z -> Z -> Dev -> reply unit * Dev
}.

(** The contract of [mem_read]: a successful read of [n] bytes returns a
    buffer of [n] bytes. *)
Class I2CLaws (Dev : Type) `{I2C Dev} : Prop := {
  mem_read_length :
    forall n addr reg d bs d',
      mem_read n addr reg d = (Ack bs, d') -> length bs = n
}.

(** ** Observable actions *)

(** [task_share.Share] objects are references into the store of slots. *)
Abbreviation share := nat (only parsing).

(** The pieces of one printed line. *)
Inductive printed : Type :=
| PStr (s : string)
| PNum (z : Z)
| PStatus (st : Z * Z * Z * Z)
| PExc (e : exn).

Inductive event : Type :=
| EvMemRead (n : nat) (addr reg : Z) (r : reply (list byte))
| EvMemWrite (data : payload) (addr reg : Z) (r : reply unit)
| EvDelay (ms : Z)
| EvPrint (line : list printed)
| EvGcCollect
| EvSharePut (s : share) (v : Z)
| EvYield (v : Z).

Definition is_mem_write (e : event) : bool :=
  match e with EvMemWrite _ _ _ _ => true | _ => false end.

Definition is_yield (e : event) : bool :=
  match e with EvYield _ => true | _ => false end.

Definition is_bus_call (e : event) : bool :=
  match e with
  | EvMemRead _ _ _ _ | EvMemWrite _ _ _ _ => true
  | _ => false
  end.

(** ** Outcomes *)

Inductive outcome (A : Type) : Type :=
| Returned (a : A)
| Raised (e : exn)
| OutOfFuel.
Arguments Returned {A} a.
Arguments Raised {A} e.
Arguments OutOfFuel {A}.

(** ** Class constants *)

Definition I2C_ADDR : Z := 0x28.

Definition REG_OPR_MODE : Z := 0x3D.
Definition REG_CALIB_STAT : Z := 0x35.
Definition REG_EULER_ANGLES : Z := 0x1A.
Definition REG_GYRO_DATA : Z := 0x14.
Definition REG_CALIBRATION_DATA : Z := 0x55.

Definition MODE_CONFIG : Z := 0x00.
Definition MODE_ACCONLY : Z := 0x01.
Definition MODE_MAGONLY : Z := 0x02.
Definition MODE_GYRONLY : Z := 0x03.
Definition MODE_ACCMAG : Z := 0x04.
Definition MODE_ACCGYRO : Z := 0x05.
Definition MODE_MAGGYRO : Z := 0x06.
Definition MODE_AMG : Z := 0x07.
Definition MODE_IMUPLUS : Z := 0x08.
Definition MODE_COMPASS : Z := 0x09.
Definition MODE_M4G : Z := 0x0A.
Definition MODE_NDOF_FMC_OFF : Z := 0x0B.
Definition MODE_NDOF : Z := 0x0C.

Definition S0_CALIBRATION : Z := 0.
Definition S1_ANGLES : Z := 1.
Definition S2_VELCOITY : Z := 2.
Definition S3_HOLDING : Z := 3.

(** Default of the [filename] parameter of [save_calibration] and
    [load_calibration]. *)
Definition default_filename : string := "IMUcalibration.txt".

(** ** Pure decoding *)

Definition byte_val (b : byte) : Z := Z.of_N (Byte.to_N b).

(** One ["<h"] field: little-endian, two's complement, 16 bits. *)
Definition int16_le (lo hi : byte) : Z :=
  let u := Z.lor (byte_val lo) (Z.shiftl (byte_val hi) 8) in
  if u <? 32768 then u else u - 65536.

(** [struct.unpack("<hhh", raw_data)]: the buffer must hold six bytes. *)
Definition struct_unpack_hhh (raw_data : list byte) : reply (Z * Z * Z) :=
  match raw_data with
  | [a0; a1; b0; b1; c0; c1] =>
      Ack (int16_le a0 a1, int16_le b0 b1, int16_le c0 c1)
  | _ => Nak ValueError
  end.

(** The four 2-bit fields of the calibration status byte. *)
Definition decode_calib_status (status : Z) : Z * Z * Z * Z :=
  let sys := Z.land (Z.shiftr status 6) 0x03 in
  let gyro := Z.land (Z.shiftr status 4) 0x03 in
  let accel := Z.land (Z.shiftr status 2) 0x03 in
  let mag := Z.land status 0x03 in
  (sys, gyro, accel, mag).

(** [(status[1] + status[2] + status[3]) == 9] *)
Definition calibration_done (status : Z * Z * Z * Z) : bool :=
  let '(_, gyro, accel, mag) := status in
  gyro + accel + mag =? 9.

(** ** The driver object *)

Record BNO055 : Type := mkBNO055 {
  profiler : bool;
  state : Z;
  debug : bool
}.

(** ** The world and the monad of driver code *)

Section Driver.

Context {Dev : Type} `{Bus : I2C Dev}.

(** Everything a method can read or change besides its object: the chip
    behind the bus, the files in flash, the shared slots and the trace of
    observable actions (oldest first). *)
Record world : Type := World {
  dev : Dev;
  fs : gmap string (list byte);
  slots : share -> Z;
  trace : list event
}.

Definition set_dev (d : Dev) (w : world) : world :=
  {| dev := d; fs := fs w; slots := slots w; trace := trace w |}.

Definition set_fs (f : gmap string (list byte)) (w : world) : world :=
  {| dev := dev w; fs := f; slots := slots w; trace := trace w |}.

Definition set_slots (s : share -> Z) (w : world) : world :=
  {| dev := dev w; fs := fs w; slots := s; trace := trace w |}.

Definition log (e : event) (w : world) : world :=
  {| dev := dev w; fs := fs w; slots := slots w; trace := trace w ++ [e] |}.

(** The world [w] after the chip moved to [d] and the actions [evs] were
    observed, files and slots untouched. *)
Definition after (w : world) (d : Dev) (evs : list event) : world :=
  {| dev := d; fs := fs w; slots := slots w; trace := trace w ++ evs |}.

Definition M (A : Type) : Type := world -> outcome A * world.

Definition ret {A} (a : A) : M A := fun w => (Returned a, w).

Definition bind {A B} (m : M A) (k : A -> M B) : M B :=
  fun w =>
    match m w with
    | (Returned a, w') => k a w'
    | (Raised e, w') => (Raised e, w')
    | (OutOfFuel, w') => (OutOfFuel, w')
    end.

Definition raise {A} (e : exn) : M A := fun w => (Raised e, w).

Definition out_of_fuel {A} : M A := fun w => (OutOfFuel, w).

(** [try: body except <catches> as e: handler e] *)
Definition try_except {A} (body : M A) (catches : exn -> bool)
    (handler : exn -> M A) : M A :=
  fun w =>
    match body w with
    | (Raised e, w') => if catches e then handler e w' else (Raised e, w')
    | r => r
    end.

Definition emit (e : event) : M unit := fun w => (Returned tt, log e w).

Definition of_reply {A} (r : reply A) : M A :=
  match r with
  | Ack a => ret a
  | Nak e => raise e
  end.

End Driver.

Arguments world Dev : clear implicits.
Arguments M Dev A : clear implicits.

Notation "x <- m ;; k" := (bind m (fun x => k))
  (at level 100, m at next level, right associativity).
Notation "m ;;; k" := (bind m (fun _ => k))
  (at level 100, right associativity).

Section Methods.

Context {Dev : Type} `{Bus : I2C Dev}.

(** *** Collaborators *)

(** [self.i2c.mem_read(n, addr, reg)] *)
Definition i2c_mem_read (n : nat) (addr reg : Z) : M Dev (list byte) :=
  fun w =>
    let '(r, d) := mem_read n addr reg (dev w) in
    of_reply r (log (EvMemRead n addr reg r) (set_dev d w)).

(** [self.i2c.mem_write(data, addr, reg)] *)
Definition i2c_mem_write (data : payload) (addr reg : Z) : M Dev unit :=
  fun w =>
    let '(r, d) := mem_write data addr reg (dev w) in
    of_reply r (log (EvMemWrite data addr reg r) (set_dev d w)).

(** [pyb.delay(ms)] *)
Definition pyb_delay (ms : Z) : M Dev unit := emit (EvDelay ms).

(** [print(...)] *)
Definition print (line : list printed) : M Dev unit := emit (EvPrint line).

(** [gc.collect()] *)
Definition gc_collect : M Dev unit := emit EvGcCollect.

(** [os.listdir()] *)
Definition listdir : M Dev (list string) :=
  fun w => (Returned (elements (dom (fs w))), w).

(** [open(filename, "wb")]: the file is created or truncated. *)
Definition open_wb (filename : string) : M Dev unit :=
  fun w => (Returned tt, set_fs (<[filename := []]> (fs w)) w).

(** [f.write(data)] on a file open for writing. *)
Definition file_write (filename : string) (data : list byte) : M Dev unit :=
  fun w =>
    let old := default [] (fs w !! filename) in
    (Returned tt, set_fs (<[filename := old ++ data]> (fs w)) w).

(** [open(filename, "rb")] then [f.read()]; a missing file is [ENOENT]. *)
Definition file_read_all (filename : string) : M Dev (list byte) :=
  fun w =>
    match fs w !! filename with
    | Some data => (Returned data, w)
    | None => (Raised (OSError 2), w)
    end.

(** [share.get()] *)
Definition share_get (s : share) : M Dev Z :=
  fun w => (Returned (slots w s), w).

(** [share.put(v)]: the last value wins. *)
Definition share_put (s : share) (v : Z) : M Dev unit :=
  fun w => (Returned tt, log (EvSharePut s v) (set_slots (<[s := v]> (slots w)) w)).

(** *** Methods of [BNO055] *)

Definition set_mode (mode : Z) : M Dev unit :=
  try_except
    (i2c_mem_write (PInt mode) I2C_ADDR REG_OPR_MODE ;;;
     pyb_delay 10)
    is_OSError
    (fun e =>
       print [PStr "[ERROR] BNO055 cannot set mode"] ;;;
       raise e).

Definition initialize_imu : M Dev unit :=
  set_mode MODE_CONFIG ;;;
  try_except
    (set_mode MODE_NDOF ;;;
     print [PStr "[BNO055] Initialized in NDOF Mode."])
    any_exn
    (fun _ => print [PStr "[ERROR] BNO055 not detected. Check wiring!"]).

Definition get_calibration_status : M Dev (Z * Z * Z * Z) :=
  buf <- i2c_mem_read 1 I2C_ADDR REG_CALIB_STAT ;;
  match buf with
  | b :: _ => ret (decode_calib_status (byte_val b))
  | [] => raise IndexError
  end.

Definition get_euler_angles : M Dev (Z * Z * Z) :=
  raw_data <- i2c_mem_read 6 I2C_ADDR REG_EULER_ANGLES ;;
  of_reply (struct_unpack_hhh raw_data).

Definition get_angular_velocity : M Dev (Z * Z * Z) :=
  raw_data <- i2c_mem_read 6 I2C_ADDR REG_GYRO_DATA ;;
  of_reply (struct_unpack_hhh raw_data).

Definition get_calibration_data : M Dev (list byte) :=
  i2c_mem_read 22 I2C_ADDR REG_CALIBRATION_DATA.

Definition write_calibration_data (data : list byte) : M Dev unit :=
  if negb (length data =? 22)%nat then
    print [PStr "[ERROR] Invalid calibration data size."]
  else
    i2c_mem_write (PBuf data) I2C_ADDR REG_CALIBRATION_DATA.

Definition save_calibration (filename : string) : M Dev unit :=
  try_except
    (open_wb filename ;;;
     data <- get_calibration_data ;;
     file_write filename data ;;;
     print [PStr "[BNO055] Calibration saved successfully."])
    is_Exception
    (fun e => print [PStr "[ERROR] Failed to save calibration: "; PExc e]).

Definition load_calibration (filename : string) : M Dev bool :=
  file_list <- listdir ;;
  if bool_decide (filename ∈ file_list) then
    data <- file_read_all filename ;;
    write_calibration_data data ;;;
    print [PStr "[BNO055] Calibration loaded from file."] ;;;
    ret true
  else
    print [PStr "[BNO055] Needs to be done manually:"] ;;;
    ret false.

(** One pass through the body of [while not calibration_done]; the value is
    the new [calibration_done]. The status is read a second time for the
    progress line. *)
Definition poll_body : M Dev bool :=
  status <- get_calibration_status ;;
  let calibration_done := calibration_done status in
  shown <- get_calibration_status ;;
  print [PStr "Calibrating..."; PStatus shown] ;;;
  pyb_delay 500 ;;;
  ret calibration_done.

(** The [while] loop: [calibration_done] starts [False], so the body runs at
    least once. *)
Fixpoint poll_until_done (fuel : nat) : M Dev unit :=
  match fuel with
  | O => out_of_fuel
  | S fuel' =>
      done <- poll_body ;;
      if done then ret tt else poll_until_done fuel'
  end.

Definition calibrate_if_needed (fuel : nat) : M Dev unit :=
  loaded <- load_calibration default_filename ;;
  (if negb loaded then
     poll_until_done fuel ;;;
     save_calibration default_filename
   else ret tt) ;;;
  print [PStr "[BNO055] Calibration complete and saved."].

(** [BNO055(debug, profiler)] *)
Definition init (debug profiler : bool) (fuel : nat) : M Dev BNO055 :=
  print [PStr "Initilizing IMU"] ;;;
  initialize_imu ;;;
  calibrate_if_needed fuel ;;;
  print [PStr "\Initilizing IMU"] ;;;
  gc_collect ;;;
  ret {| profiler := profiler; state := S1_ANGLES; debug := debug |}.

(** *** The generator [task] *)

(** One pass through the body of [while True], up to the [yield]. *)
Definition task_cycle (self : BNO055) (shares : share * share) : M Dev Z :=
  let '(heading_share, target_heading) := shares in
  gc_collect ;;;
  angles <- get_euler_angles ;;
  (if debug self then
     target <- share_get target_heading ;;
     measured <- share_get heading_share ;;
     print [PStr "Target Heading: "; PNum target;
            PStr " | Measured Heading: "; PNum measured]
   else ret tt) ;;;
  share_put heading_share (fst (fst angles)) ;;;
  emit (EvYield (state self)) ;;;
  ret (state self).

Inductive gen_state : Type := GenCreated | GenSuspended | GenClosed.

Record generator : Type := mkGenerator {
  gen_self : BNO055;
  gen_shares : share * share;
  gen_status : gen_state
}.

(** [self.task(shares)]: calling a generator function runs none of it. *)
Definition task (self : BNO055) (shares : share * share) : generator :=
  {| gen_self := self; gen_shares := shares; gen_status := GenCreated |}.

Definition with_status (s : gen_state) (g : generator) : generator :=
  {| gen_self := gen_self g; gen_shares := gen_shares g; gen_status := s |}.

(** [next(g)]: run to the next [yield]. An exception leaving the body closes
    the generator, and a closed generator raises [StopIteration]. *)
Definition gen_next (g : generator) (w : world Dev)
    : outcome Z * generator * world Dev :=
  match gen_status g with
  | GenClosed => (Raised StopIteration, g, w)
  | _ =>
      match task_cycle (gen_self g) (gen_shares g) w with
      | (Returned v, w') => (Returned v, with_status GenSuspended g, w')
      | (r, w') => (r, with_status GenClosed g, w')
      end
  end.

(** The scheduler resuming the task [n] times, until an exception. *)
Fixpoint run_task (n : nat) (g : generator) (w : world Dev)
    : outcome (list Z) * generator * world Dev :=
  match n with
  | O => (Returned [], g, w)
  | S n' =>
      match gen_next g w with
      | (Returned v, g', w') =>
          match run_task n' g' w' with
          | (Returned vs, g'', w'') => (Returned (v :: vs), g'', w'')
          | r => r
          end
      | (Raised e, g', w') => (Raised e, g', w')
      | (OutOfFuel, g', w') => (OutOfFuel, g', w')
      end
  end.

End Methods.

(** ** Vocabulary for traces *)

(** What the console shows when the chip does not take the fusion mode. *)
Definition not_detected_report (e : exn) : list event :=
  (if is_OSError e
   then [EvPrint [PStr "[ERROR] BNO055 cannot set mode"]]
   else []) ++
  [EvPrint [PStr "[ERROR] BNO055 not detected. Check wiring!"]].

(** What one completed cycle of [task] adds to the trace, for the buffer
    [raw] read from the chip, the [heading] decoded from it and the slot
    values shown by the debug line. *)
Definition cycle_events (self : BNO055) (shares : share * share)
    (raw : list byte) (heading target measured : Z) : list event :=
  [EvGcCollect; EvMemRead 6 I2C_ADDR REG_EULER_ANGLES (Ack raw)] ++
  (if debug self
   then [EvPrint [PStr "Target Heading: "; PNum target;
                  PStr " | Measured Heading: "; PNum measured]]
   else []) ++
  [EvSharePut shares.1 heading; EvYield (state self)].

(** A stretch of trace that is one completed cycle: the heading put into
    the slot is the first ["<h"] field of the six bytes read. *)
Definition cycle_ok (self : BNO055) (shares : share * share)
    (block : list event) : Prop :=
  exists a0 a1 b0 b1 c0 c1 target measured,
    block = cycle_events self shares [a0; a1; b0; b1; c0; c1]
              (int16_le a0 a1) target measured.

(** A stretch of trace whose only yield is its last action, reporting [v],
    and comes right after the put of a heading into slot [s]. *)
Definition put_then_yield (s : share) (v : Z) (block : list event) : Prop :=
  exists before heading,
    block = before ++ [EvSharePut s heading; EvYield v] /\
    existsb is_yield before = false.

(** The actions open to [task]: housekeeping, console lines, reads of the
    Euler-angle register, puts into its own heading slot, and the yield. *)
Definition task_event_allowed (shares : share * share) (ev : event) : bool :=
  match ev with
  | EvMemRead _ addr reg _ => (addr =? I2C_ADDR) && (reg =? REG_EULER_ANGLES)
  | EvMemWrite _ _ _ _ => false
  | EvDelay _ => false
  | EvPrint _ => true
  | EvGcCollect => true
  | EvSharePut s _ => (s =? shares.1)%nat
  | EvYield _ => true
  end.

(** The frame of resuming the task from [g] in [w] to [g'] in [w']: files,
    object and shares as before, every slot but the heading slot as before,
    and only allowed actions added. *)
Definition resumption_frame {Dev : Type} (g : generator) (w : world Dev)
    (g' : generator) (w' : world Dev) : Prop :=
  fs w' = fs w /\
  gen_self g' = gen_self g /\
  gen_shares g' = gen_shares g /\
  (forall s : share, s <> (gen_shares g).1 -> slots w' s = slots w s) /\
  exists evs,
    trace w' = trace w ++ evs /\
    forallb (task_event_allowed (gen_shares g)) evs = true.

(** What one pass through the body of the calibration wait adds to the
    trace: the status read that decides ([b]), the status read that is
    shown ([shown]), the progress line and the polling delay. *)
Definition poll_block (b shown : byte) : list event :=
  [EvMemRead 1 I2C_ADDR REG_CALIB_STAT (Ack [b]);
   EvMemRead 1 I2C_ADDR REG_CALIB_STAT (Ack [shown]);
   EvPrint [PStr "Calibrating...";
            PStatus (decode_calib_status (byte_val shown))];
   EvDelay 500].

(** The actions of the calibration wait: reads of one byte at
    [REG_CALIB_STAT], progress lines and delays of 500. *)
Definition wait_event_allowed (ev : event) : bool :=
  match ev with
  | EvMemRead n addr reg _ =>
      (n =? 1)%nat && (addr =? I2C_ADDR) && (reg =? REG_CALIB_STAT)
  | EvPrint (PStr s :: _) => String.eqb s "Calibrating..."
  | EvDelay ms => ms =? 500
  | _ => false
  end.

(** A stretch of the calibration wait from [w] to [w']: no file and no slot
    changes, and only the actions of the wait are added. *)
Definition wait_frame {Dev : Type} (w w' : world Dev) : Prop :=
  fs w' = fs w /\
  slots w' = slots w /\
  exists evs,
    trace w' = trace w ++ evs /\ forallb wait_event_allowed evs = true.

(** The actions open to [load_calibration]: console lines and the write of
    a 22-byte buffer to the coefficient registers. *)
Definition load_event_allowed (ev : event) : bool :=
  match ev with
  | EvPrint _ => true
  | EvMemWrite (PBuf data) addr reg _ =>
      (addr =? I2C_ADDR) && (reg =? REG_CALIBRATION_DATA) &&
      (length data =? 22)%nat
  | _ => false
  end.

(** The heading in a buffer read from the Euler-angle register: its first
    ["<h"] field. *)
Definition heading_of (raw : list byte) : Z :=
  match raw with
  | lo :: hi :: _ => int16_le lo hi
  | _ => 0
  end.

(** What the chip answers to [n] reads of the Euler-angle register made one
    after the other from the state [d], up to the first read that fails: the
    buffers handed out, the exception of the failed read if there is one,
    and the state the chip is left in. *)
Fixpoint euler_answers {Dev : Type} `{I2C Dev} (n : nat) (d : Dev)
    : list (list byte) * option exn * Dev :=
  match n with
  | O => ([], None, d)
  | S n' =>
      match mem_read 6 I2C_ADDR REG_EULER_ANGLES d with
      | (Ack raw, d') =>
          let '(raws, failure, d'') := euler_answers n' d' in
          (raw :: raws, failure, d'')
      | (Nak e, d') => ([], Some e, d')
      end
  end.

(** The slots after the headings of the buffers [raws] were put, one after
    the other, into the heading slot. *)
Fixpoint cycles_slots (shares : share * share) (sl : share -> Z)
    (raws : list (list byte)) : share -> Z :=
  match raws with
  | [] => sl
  | raw :: rest =>
      cycles_slots shares (<[shares.1 := heading_of raw]> sl) rest
  end.

(** The trace of the completed cycles that read the buffers [raws], started
    with the slots [sl]: the debug line of a cycle shows the slots as the
    cycle before left them. *)
Fixpoint cycles_trace (self : BNO055) (shares : share * share)
    (sl : share -> Z) (raws : list (list byte)) : list event :=
  match raws with
  | [] => []
  | raw :: rest =>
      cycle_events self shares raw (heading_of raw)
        (sl shares.2) (sl shares.1) ++
      cycles_trace self shares (<[shares.1 := heading_of raw]> sl) rest
  end.

(** ** A scripted bus

    A chip whose answers are written down in advance: every call consumes
    the next entry of the script; a read answer is cut or zero-padded to the
    requested length; once the script is used up every call succeeds and
    reads return zeros. *)

Definition mock_dev : Type := list (reply (list byte)).

Definition mock_mem_read (n : nat) (addr reg : Z) (d : mock_dev)
    : reply (list byte) * mock_dev :=
  match d with
  | Ack bs :: d' => (Ack (take n (bs ++ replicate n x00)), d')
  | Nak e :: d' => (Nak e, d')
  | [] => (Ack (replicate n x00), [])
  end.

Definition mock_mem_write (data : payload) (addr reg : Z) (d : mock_dev)
    : reply unit * mock_dev :=
  match d with
  | Ack _ :: d' => (Ack tt, d')
  | Nak e :: d' => (Nak e, d')
  | [] => (Ack tt, [])
  end.

#[export] Instance mock_bus : I2C mock_dev := {|
  mem_read := mock_mem_read;
  mem_write := mock_mem_write
|}.

(** A freshly booted board: the given script and files, zeroed slots and an
    empty trace. *)
Definition boot (d : mock_dev) (files : gmap string (list byte))
    : world mock_dev :=
  {| dev := d; fs := files; slots := fun _ => 0; trace := [] |}.

(** * Properties *)

(** ** The scripted bus keeps the contract of [mem_read] *)

Lemma mock_mem_read_length n addr reg (d : mock_dev) bs d' :
  mock_mem_read n addr reg d = (Ack bs, d') -> length bs = n.
Proof.
  destruct d as [|[bs0|e] d0]; simpl; intros E; inversion E; subst.
  - apply length_replicate.
  - rewrite length_take, length_app, length_replicate. lia.
Qed.

#[export] Instance mock_bus_laws : I2CLaws mock_dev.
Proof. constructor. exact mock_mem_read_length. Qed.

(** ** Runs of the collaborators *)

Section Runs.

Context {Dev : Type} `{Bus : I2C Dev}.
Implicit Types (w : world Dev) (d : Dev) (e : exn).

Lemma log_after w d evs ev : log ev (after w d evs) = after w d (evs ++ [ev]).
Proof. unfold log, after; simpl. by rewrite app_assoc. Qed.

Lemma i2c_mem_write_run data addr reg w :
  i2c_mem_write data addr reg w =
    (match (mem_write data addr reg (dev w)).1 with
     | Ack _ => Returned tt
     | Nak e => Raised e
     end,
     after w (mem_write data addr reg (dev w)).2
       [EvMemWrite data addr reg (mem_write data addr reg (dev w)).1]).
Proof.
  unfold i2c_mem_write.
  destruct (mem_write data addr reg (dev w)) as [[[]|e] d]; reflexivity.
Qed.

Lemma i2c_mem_read_run n addr reg w :
  i2c_mem_read n addr reg w =
    (match (mem_read n addr reg (dev w)).1 with
     | Ack bs => Returned bs
     | Nak e => Raised e
     end,
     after w (mem_read n addr reg (dev w)).2
       [EvMemRead n addr reg (mem_read n addr reg (dev w)).1]).
Proof.
  unfold i2c_mem_read.
  destruct (mem_read n addr reg (dev w)) as [[bs|e] d]; reflexivity.
Qed.

End Runs.

(** Unfold the monad and the collaborators that touch no bus; bus calls are
    exposed as [mem_read] / [mem_write] on the device state. *)
Ltac unfold_m :=
  unfold try_except, bind, ret, raise, out_of_fuel, of_reply,
    i2c_mem_write, i2c_mem_read, pyb_delay, print, gc_collect, emit,
    share_get, share_put, listdir, open_wb, file_write, file_read_all in *.

(** Close a goal that equates two runs differing only in how the trace is
    bracketed. *)
Ltac same_world :=
  unfold after, log, set_dev, set_fs, set_slots; simpl;
  rewrite <- ?app_assoc; simpl; reflexivity.

(** ** Mode control *)

Section ModeControl.

Context {Dev : Type} `{Bus : I2C Dev}.
Implicit Types (w : world Dev) (d : Dev) (e : exn).

(** The run of [set_mode], by the answer of the bus. *)
Lemma set_mode_run mode w :
  set_mode mode w =
    match mem_write (PInt mode) I2C_ADDR REG_OPR_MODE (dev w) with
    | (Ack u, d) =>
        (Returned tt,
         after w d [EvMemWrite (PInt mode) I2C_ADDR REG_OPR_MODE (Ack u);
                    EvDelay 10])
    | (Nak e, d) =>
        (Raised e,
         after w d
           (EvMemWrite (PInt mode) I2C_ADDR REG_OPR_MODE (Nak e) ::
            if is_OSError e
            then [EvPrint [PStr "[ERROR] BNO055 cannot set mode"]]
            else []))
    end.
Proof.
  unfold set_mode; unfold_m.
  destruct (mem_write (PInt mode) I2C_ADDR REG_OPR_MODE (dev w))
    as [[u|e] d]; simpl.
  - same_world.
  - destruct (is_OSError e); same_world.
Qed.

(** C5. [set_mode mode] makes exactly one bus call, the write of the integer
    [mode] to [REG_OPR_MODE] of the chip at [I2C_ADDR]. When the write is
    acknowledged the only further action is the delay of 10 and the method
    returns; when the write raises [e], the method raises the same [e] with
    no delay and no second write (an [OSError] is reported on the console
    first). *)
Theorem set_mode_spec mode w :
  set_mode mode w =
    match mem_write (PInt mode) I2C_ADDR REG_OPR_MODE (dev w) with
    | (Ack u, d) =>
        (Returned tt,
         after w d [EvMemWrite (PInt mode) I2C_ADDR REG_OPR_MODE (Ack u);
                    EvDelay 10])
    | (Nak e, d) =>
        (Raised e,
         after w d
           (EvMemWrite (PInt mode) I2C_ADDR REG_OPR_MODE (Nak e) ::
            if is_OSError e
            then [EvPrint [PStr "[ERROR] BNO055 cannot set mode"]]
            else []))
    end.
Proof.
  unfold set_mode, try_except, bind.
  rewrite i2c_mem_write_run.
  destruct (mem_write (PInt mode) I2C_ADDR REG_OPR_MODE (dev w))
    as [[[]|e] d]; cbn [fst snd].
  - unfold pyb_delay, emit. by rewrite log_after.
  - destruct (is_OSError e); [|reflexivity].
    unfold print, emit, raise. by rewrite log_after.
Qed.

(** C4. [initialize_imu] starts with the write of [MODE_CONFIG] and, once
    that is acknowledged and settled, writes [MODE_NDOF]. If this second
    write raises any exception [e], the method prints the not-detected line
    and returns normally; [e] does not reach the caller. (A failure of the
    first write is outside the [try] and is raised.) *)
Theorem initialize_imu_spec w :
  initialize_imu w =
    match mem_write (PInt MODE_CONFIG) I2C_ADDR REG_OPR_MODE (dev w) with
    | (Nak e, d) =>
        (Raised e,
         after w d
           (EvMemWrite (PInt MODE_CONFIG) I2C_ADDR REG_OPR_MODE (Nak e) ::
            if is_OSError e
            then [EvPrint [PStr "[ERROR] BNO055 cannot set mode"]]
            else []))
    | (Ack u, d) =>
        match mem_write (PInt MODE_NDOF) I2C_ADDR REG_OPR_MODE d with
        | (Ack u', d') =>
            (Returned tt,
             after w d'
               [EvMemWrite (PInt MODE_CONFIG) I2C_ADDR REG_OPR_MODE (Ack u);
                EvDelay 10;
                EvMemWrite (PInt MODE_NDOF) I2C_ADDR REG_OPR_MODE (Ack u');
                EvDelay 10;
                EvPrint [PStr "[BNO055] Initialized in NDOF Mode."]])
        | (Nak e, d') =>
            (Returned tt,
             after w d'
               ([EvMemWrite (PInt MODE_CONFIG) I2C_ADDR REG_OPR_MODE (Ack u);
                 EvDelay 10;
                 EvMemWrite (PInt MODE_NDOF) I2C_ADDR REG_OPR_MODE (Nak e)]
                ++ not_detected_report e))
        end
    end.
Proof.
  unfold initialize_imu, bind at 1.
  rewrite set_mode_run.
  destruct (mem_write (PInt MODE_CONFIG) I2C_ADDR REG_OPR_MODE (dev w))
    as [[u|e] d]; [|reflexivity].
  unfold try_except at 1, bind at 1.
  rewrite set_mode_run; simpl dev.
  destruct (mem_write (PInt MODE_NDOF) I2C_ADDR REG_OPR_MODE d)
    as [[u'|e] d']; unfold_m; simpl.
  - same_world.
  - unfold not_detected_report. destruct (is_OSError e); same_world.
Qed.

End ModeControl.

(** ** Calibration coefficients on the chip *)

Section DeviceCalibration.

Context {Dev : Type} `{Bus : I2C Dev}.
Implicit Types (w : world Dev) (d : Dev) (e : exn).

Lemma write_calibration_data_wrong_size (data : list byte) w :
  length data <> 22%nat ->
  write_calibration_data data w =
    (Returned tt,
     after w (dev w)
       [EvPrint [PStr "[ERROR] Invalid calibration data size."]]).
Proof.
  intros Hlen. unfold write_calibration_data.
  apply Nat.eqb_neq in Hlen. rewrite Hlen. reflexivity.
Qed.

Lemma write_calibration_data_sized (data : list byte) w :
  length data = 22%nat ->
  write_calibration_data data w =
    match mem_write (PBuf data) I2C_ADDR REG_CALIBRATION_DATA (dev w) with
    | (Ack u, d) =>
        (Returned tt,
         after w d
           [EvMemWrite (PBuf data) I2C_ADDR REG_CALIBRATION_DATA (Ack u)])
    | (Nak e, d) =>
        (Raised e,
         after w d
           [EvMemWrite (PBuf data) I2C_ADDR REG_CALIBRATION_DATA (Nak e)])
    end.
Proof.
  intros Hlen. unfold write_calibration_data.
  rewrite Hlen, Nat.eqb_refl. cbn [negb].
  rewrite i2c_mem_write_run.
  destruct (mem_write (PBuf data) I2C_ADDR REG_CALIBRATION_DATA (dev w))
    as [[[]|e] d]; reflexivity.
Qed.

(** C3 (as the code has it). A blob whose length is not 22 causes no bus
    call: the chip, the files and the slots are untouched, the error line is
    printed and the method returns [None] normally. A blob of length 22
    causes exactly one bus call, the write of exactly these bytes to
    [REG_CALIBRATION_DATA]; the method returns [None] when the write is
    acknowledged and raises what the write raises otherwise. *)
Theorem write_calibration_data_spec (data : list byte) w :
  (length data <> 22%nat ->
   write_calibration_data data w =
     (Returned tt,
      after w (dev w)
        [EvPrint [PStr "[ERROR] Invalid calibration data size."]])) /\
  (length data = 22%nat ->
   write_calibration_data data w =
     match mem_write (PBuf data) I2C_ADDR REG_CALIBRATION_DATA (dev w) with
     | (Ack u, d) =>
         (Returned tt,
          after w d
            [EvMemWrite (PBuf data) I2C_ADDR REG_CALIBRATION_DATA (Ack u)])
     | (Nak e, d) =>
         (Raised e,
          after w d
            [EvMemWrite (PBuf data) I2C_ADDR REG_CALIBRATION_DATA (Nak e)])
     end).
Proof.
  split.
  - apply write_calibration_data_wrong_size.
  - apply write_calibration_data_sized.
Qed.

End DeviceCalibration.

(** The theorem at a 3-byte blob and at a 22-byte blob on the scripted bus. *)
Lemma write_calibration_data_spec_witness :
  write_calibration_data [x01; x02; x03] (boot [] ∅) =
    (Returned tt,
     after (boot [] ∅) []
       [EvPrint [PStr "[ERROR] Invalid calibration data size."]]) /\
  write_calibration_data (replicate 22 x07) (boot [Nak (OSError 5)] ∅) =
    (Raised (OSError 5),
     after (boot [Nak (OSError 5)] ∅) []
       [EvMemWrite (PBuf (replicate 22 x07)) I2C_ADDR REG_CALIBRATION_DATA
          (Nak (OSError 5))]).
Proof.
  split.
  - apply (proj1 (write_calibration_data_spec [x01; x02; x03] (boot [] ∅))).
    simpl. lia.
  - exact (proj2 (write_calibration_data_spec (replicate 22 x07)
                    (boot [Nak (OSError 5)] ∅)) eq_refl).
Defined.

(** C3 as stated fails: on the 3-byte blob the method does not return a
    failure; its outcome is the same normal [None] as for a 22-byte blob
    that the chip acknowledges. *)
Lemma write_calibration_data_returns_no_failure :
  length [x01; x02; x03] <> 22%nat /\
  (write_calibration_data [x01; x02; x03] (boot [] ∅)).1 = Returned tt /\
  (write_calibration_data (replicate 22 x07) (boot [] ∅)).1 = Returned tt.
Proof. repeat split; simpl; lia. Qed.

(** ** Decoding of raw register bytes *)

Lemma byte_val_range (b : byte) : 0 <= byte_val b < 256.
Proof.
  unfold byte_val. pose proof (Byte.to_N_bounded b) as Hb. lia.
Qed.

Lemma lor_shiftl_8 (lo hi : Z) :
  0 <= lo < 256 -> Z.lor lo (Z.shiftl hi 8) = lo + 256 * hi.
Proof.
  intros Hlo.
  assert (Hdisj : Z.land lo (Z.shiftl hi 8) = 0).
  { apply Z.bits_inj'. intros n Hn.
    rewrite Z.land_spec, Z.bits_0.
    destruct (Z.lt_ge_cases n 8) as [Hlt|Hge].
    - rewrite (Z.shiftl_spec_low hi 8 n Hlt). apply andb_false_r.
    - replace lo with (lo mod 2 ^ 8) by (apply Z.mod_small; lia).
      rewrite Z.mod_pow2_bits_high by lia. reflexivity. }
  rewrite <- Z.lxor_lor by exact Hdisj.
  rewrite <- Z.add_nocarry_lxor by exact Hdisj.
  rewrite Z.shiftl_mul_pow2 by lia. lia.
Qed.

Lemma int16_le_value (lo hi : byte) :
  -32768 <= int16_le lo hi < 32768 /\
  int16_le lo hi mod 65536 = byte_val lo + 256 * byte_val hi.
Proof.
  unfold int16_le.
  pose proof (byte_val_range lo) as Hlo.
  pose proof (byte_val_range hi) as Hhi.
  rewrite lor_shiftl_8 by exact Hlo.
  destruct (Z.ltb_spec (byte_val lo + 256 * byte_val hi) 32768) as [Hlt|Hge];
    (split; [lia | Z.div_mod_to_equations; lia]).
Qed.

Lemma decode_calib_status_range (status : Z) :
  let '(sys, gyro, accel, mag) := decode_calib_status status in
  0 <= sys <= 3 /\ 0 <= gyro <= 3 /\ 0 <= accel <= 3 /\ 0 <= mag <= 3.
Proof.
  unfold decode_calib_status.
  assert (Hland : forall x, 0 <= Z.land x 3 <= 3).
  { intros x. rewrite (Z.land_ones x 2 ltac:(lia) : Z.land x 3 = x mod 4).
    pose proof (Z.mod_pos_bound x 4). lia. }
  repeat split; apply Hland.
Qed.

(** ** Orientation registers *)

Section OrientationReader.

Context {Dev : Type} `{Laws : I2CLaws Dev}.
Implicit Types (w : world Dev) (d : Dev) (e : exn).

Lemma six_bytes (raw : list byte) :
  length raw = 6%nat ->
  exists a0 a1 b0 b1 c0 c1, raw = [a0; a1; b0; b1; c0; c1].
Proof.
  intros Hlen.
  do 6 (destruct raw as [|? raw]; [discriminate Hlen|]).
  destruct raw; [|discriminate Hlen]. by repeat eexists.
Qed.

(** The shared body of [get_euler_angles] and [get_angular_velocity]. *)
Lemma read_hhh_run reg w :
  match mem_read 6 I2C_ADDR reg (dev w) with
  | (Ack raw, d) =>
      exists a0 a1 b0 b1 c0 c1,
        raw = [a0; a1; b0; b1; c0; c1] /\
        (raw_data <- i2c_mem_read 6 I2C_ADDR reg ;;
         of_reply (struct_unpack_hhh raw_data)) w =
          (Returned (int16_le a0 a1, int16_le b0 b1, int16_le c0 c1),
           after w d [EvMemRead 6 I2C_ADDR reg (Ack raw)])
  | (Nak e, d) =>
      (raw_data <- i2c_mem_read 6 I2C_ADDR reg ;;
       of_reply (struct_unpack_hhh raw_data)) w =
        (Raised e, after w d [EvMemRead 6 I2C_ADDR reg (Nak e)])
  end.
Proof.
  unfold bind. rewrite i2c_mem_read_run.
  destruct (mem_read 6 I2C_ADDR reg (dev w)) as [[raw|e] d] eqn:Hread;
    [|reflexivity].
  destruct (six_bytes raw (mem_read_length _ _ _ _ _ _ Hread))
    as (a0 & a1 & b0 & b1 & c0 & c1 & ->).
  exists a0, a1, b0, b1, c0, c1. split; reflexivity.
Qed.

(** C7. A ["<h"] field is the little-endian, two's complement value of its
    two bytes; [b'\x01\x00\x02\x00\xFF\xFF'] unpacks to [(1, 2, -1)];
    [get_euler_angles] makes one bus call, the read of 6 bytes at
    [REG_EULER_ANGLES], and returns the three fields of the buffer in order
    and unscaled; [get_angular_velocity] does the same at [REG_GYRO_DATA].
    Both raise what the read raises. *)
Theorem orientation_reader_spec w :
  (forall lo hi : byte,
     -32768 <= int16_le lo hi < 32768 /\
     int16_le lo hi mod 65536 = byte_val lo + 256 * byte_val hi) /\
  struct_unpack_hhh [x01; x00; x02; x00; xff; xff] = Ack (1, 2, -1) /\
  match mem_read 6 I2C_ADDR REG_EULER_ANGLES (dev w) with
  | (Ack raw, d) =>
      exists a0 a1 b0 b1 c0 c1,
        raw = [a0; a1; b0; b1; c0; c1] /\
        get_euler_angles w =
          (Returned (int16_le a0 a1, int16_le b0 b1, int16_le c0 c1),
           after w d [EvMemRead 6 I2C_ADDR REG_EULER_ANGLES (Ack raw)])
  | (Nak e, d) =>
      get_euler_angles w =
        (Raised e, after w d [EvMemRead 6 I2C_ADDR REG_EULER_ANGLES (Nak e)])
  end /\
  match mem_read 6 I2C_ADDR REG_GYRO_DATA (dev w) with
  | (Ack raw, d) =>
      exists a0 a1 b0 b1 c0 c1,
        raw = [a0; a1; b0; b1; c0; c1] /\
        get_angular_velocity w =
          (Returned (int16_le a0 a1, int16_le b0 b1, int16_le c0 c1),
           after w d [EvMemRead 6 I2C_ADDR REG_GYRO_DATA (Ack raw)])
  | (Nak e, d) =>
      get_angular_velocity w =
        (Raised e, after w d [EvMemRead 6 I2C_ADDR REG_GYRO_DATA (Nak e)])
  end.
Proof.
  split; [exact int16_le_value|].
  split; [reflexivity|].
  split.
  - exact (read_hhh_run REG_EULER_ANGLES w).
  - exact (read_hhh_run REG_GYRO_DATA w).
Qed.

End OrientationReader.

(** [get_euler_angles] on the bytes of the example, read from the scripted
    bus. *)
Lemma orientation_reader_spec_witness :
  get_euler_angles (boot [Ack [x01; x00; x02; x00; xff; xff]] ∅) =
    (Returned (1, 2, -1),
     after (boot [Ack [x01; x00; x02; x00; xff; xff]] ∅) []
       [EvMemRead 6 I2C_ADDR REG_EULER_ANGLES
          (Ack [x01; x00; x02; x00; xff; xff])]).
Proof.
  destruct (orientation_reader_spec
              (boot [Ack [x01; x00; x02; x00; xff; xff]] ∅))
    as (_ & _ & Heuler & _).
  simpl in Heuler.
  destruct Heuler as (a0 & a1 & b0 & b1 & c0 & c1 & Hraw & Hrun).
  injection Hraw as <- <- <- <- <- <-. exact Hrun.
Defined.

(** ** The calibration wait *)

Section Convergence.

Context {Dev : Type} `{Bus : I2C Dev}.
Implicit Types (w : world Dev) (d : Dev) (e : exn).



End Convergence.


(** ** The calibration file *)

Section CalibrationStore.

Context {Dev : Type} `{Bus : I2C Dev}.
Implicit Types (w : world Dev) (d : Dev) (e : exn).

Lemma in_listdir (filename : string) w :
  bool_decide (filename ∈ elements (dom (fs w))) =
    match fs w !! filename with Some _ => true | None => false end.
Proof.
  destruct (fs w !! filename) as [data|] eqn:Hfile.
  - apply bool_decide_eq_true. rewrite elem_of_elements, elem_of_dom. eauto.
  - apply bool_decide_eq_false. rewrite elem_of_elements, elem_of_dom.
    rewrite Hfile. by intros [? ?].
Qed.

Lemma load_calibration_present filename w data :
  fs w !! filename = Some data ->
  load_calibration filename w =
    (write_calibration_data data ;;;
     print [PStr "[BNO055] Calibration loaded from file."] ;;;
     ret true) w.
Proof.
  intros Hfile. unfold load_calibration, bind at 1, listdir.
  rewrite in_listdir, Hfile.
  unfold bind at 1, file_read_all. by rewrite Hfile.
Qed.

Lemma load_calibration_absent filename w :
  fs w !! filename = None ->
  load_calibration filename w =
    (Returned false,
     after w (dev w) [EvPrint [PStr "[BNO055] Needs to be done manually:"]]).
Proof.
  intros Hfile. unfold load_calibration, bind at 1, listdir.
  by rewrite in_listdir, Hfile.
Qed.

Lemma save_calibration_run filename w :
  save_calibration filename w =
    match mem_read 22 I2C_ADDR REG_CALIBRATION_DATA (dev w) with
    | (Ack blob, d) =>
        (Returned tt,
         set_fs (<[filename := blob]> (fs w))
           (after w d
              [EvMemRead 22 I2C_ADDR REG_CALIBRATION_DATA (Ack blob);
               EvPrint [PStr "[BNO055] Calibration saved successfully."]]))
    | (Nak e, d) =>
        if is_Exception e then
          (Returned tt,
           set_fs (<[filename := []]> (fs w))
             (after w d
                [EvMemRead 22 I2C_ADDR REG_CALIBRATION_DATA (Nak e);
                 EvPrint [PStr "[ERROR] Failed to save calibration: ";
                          PExc e]]))
        else
          (Raised e,
           set_fs (<[filename := []]> (fs w))
             (after w d
                [EvMemRead 22 I2C_ADDR REG_CALIBRATION_DATA (Nak e)]))
    end.
Proof.
  unfold save_calibration, get_calibration_data; unfold_m. simpl.
  destruct (mem_read 22 I2C_ADDR REG_CALIBRATION_DATA (dev w))
    as [[blob|e] d]; simpl.
  - rewrite lookup_insert_eq, insert_insert_eq. simpl. same_world.
  - destruct (is_Exception e); same_world.
Qed.

(** C6. When the chip hands out the 22 coefficient bytes [blob],
    [save_calibration] leaves a file holding exactly [blob], and
    [load_calibration] run next finds the file and makes one bus call, the
    write of exactly [blob] to [REG_CALIBRATION_DATA]. *)
Theorem save_then_load_roundtrip (filename : string) w blob d :
  length blob = 22%nat ->
  mem_read 22 I2C_ADDR REG_CALIBRATION_DATA (dev w) = (Ack blob, d) ->
  let w1 :=
    set_fs (<[filename := blob]> (fs w))
      (after w d
         [EvMemRead 22 I2C_ADDR REG_CALIBRATION_DATA (Ack blob);
          EvPrint [PStr "[BNO055] Calibration saved successfully."]]) in
  save_calibration filename w = (Returned tt, w1) /\
  fs w1 !! filename = Some blob /\
  load_calibration filename w1 =
    match mem_write (PBuf blob) I2C_ADDR REG_CALIBRATION_DATA d with
    | (Ack u, d') =>
        (Returned true,
         after w1 d'
           [EvMemWrite (PBuf blob) I2C_ADDR REG_CALIBRATION_DATA (Ack u);
            EvPrint [PStr "[BNO055] Calibration loaded from file."]])
    | (Nak e, d') =>
        (Raised e,
         after w1 d'
           [EvMemWrite (PBuf blob) I2C_ADDR REG_CALIBRATION_DATA (Nak e)])
    end.
Proof.
  intros Hlen Hread w1. split; [|split].
  - rewrite save_calibration_run, Hread. reflexivity.
  - simpl. apply lookup_insert_eq.
  - erewrite load_calibration_present by (simpl; apply lookup_insert_eq).
    unfold bind at 1.
    rewrite (write_calibration_data_sized blob _ Hlen).
    change (dev w1) with d.
    destruct (mem_write (PBuf blob) I2C_ADDR REG_CALIBRATION_DATA d)
      as [[u|e] d']; unfold_m; same_world.
Qed.

End CalibrationStore.

(** The round trip on the scripted bus, with the default file name. *)
Lemma save_then_load_roundtrip_witness :
  let w := boot [Ack (replicate 22 x07)] ∅ in
  let w1 :=
    set_fs (<[default_filename := replicate 22 x07]> (fs w))
      (after w []
         [EvMemRead 22 I2C_ADDR REG_CALIBRATION_DATA
            (Ack (replicate 22 x07));
          EvPrint [PStr "[BNO055] Calibration saved successfully."]]) in
  save_calibration default_filename w = (Returned tt, w1) /\
  fs w1 !! default_filename = Some (replicate 22 x07) /\
  load_calibration default_filename w1 =
    (Returned true,
     after w1 []
       [EvMemWrite (PBuf (replicate 22 x07)) I2C_ADDR REG_CALIBRATION_DATA
          (Ack tt);
        EvPrint [PStr "[BNO055] Calibration loaded from file."]]).
Proof.
  exact (save_then_load_roundtrip default_filename
           (boot [Ack (replicate 22 x07)] ∅) (replicate 22 x07) []
           eq_refl eq_refl).
Defined.

(** ** Restore or earn *)

Section ConvergenceLoop.

Context {Dev : Type} `{Bus : I2C Dev}.
Implicit Types (w : world Dev) (d : Dev) (e : exn).

Lemma load_calibration_wrong_size filename w data :
  fs w !! filename = Some data ->
  length data <> 22%nat ->
  load_calibration filename w =
    (Returned true,
     after w (dev w)
       [EvPrint [PStr "[ERROR] Invalid calibration data size."];
        EvPrint [PStr "[BNO055] Calibration loaded from file."]]).
Proof.
  intros Hfile Hlen. rewrite (load_calibration_present _ _ _ Hfile).
  unfold bind at 1. rewrite (write_calibration_data_wrong_size _ _ Hlen).
  unfold_m. same_world.
Qed.

Lemma load_calibration_sized filename w data :
  fs w !! filename = Some data ->
  length data = 22%nat ->
  load_calibration filename w =
    match mem_write (PBuf data) I2C_ADDR REG_CALIBRATION_DATA (dev w) with
    | (Ack u, d) =>
        (Returned true,
         after w d
           [EvMemWrite (PBuf data) I2C_ADDR REG_CALIBRATION_DATA (Ack u);
            EvPrint [PStr "[BNO055] Calibration loaded from file."]])
    | (Nak e, d) =>
        (Raised e,
         after w d
           [EvMemWrite (PBuf data) I2C_ADDR REG_CALIBRATION_DATA (Nak e)])
    end.
Proof.
  intros Hfile Hlen. rewrite (load_calibration_present _ _ _ Hfile).
  unfold bind at 1. rewrite (write_calibration_data_sized _ _ Hlen).
  destruct (mem_write (PBuf data) I2C_ADDR REG_CALIBRATION_DATA (dev w))
    as [[u|e] d]; unfold_m; same_world.
Qed.

(** C10. A calibration file whose content is not 22 bytes long still makes
    [load_calibration] return [True]; [calibrate_if_needed] then returns
    for any amount of fuel, and all it does is print three lines: the chip
    sees no bus call at all, neither a status read nor a write of the
    coefficients. *)
Theorem wrong_size_file_counts_as_restored fuel w data :
  fs w !! default_filename = Some data ->
  length data <> 22%nat ->
  load_calibration default_filename w =
    (Returned true,
     after w (dev w)
       [EvPrint [PStr "[ERROR] Invalid calibration data size."];
        EvPrint [PStr "[BNO055] Calibration loaded from file."]]) /\
  calibrate_if_needed fuel w =
    (Returned tt,
     after w (dev w)
       [EvPrint [PStr "[ERROR] Invalid calibration data size."];
        EvPrint [PStr "[BNO055] Calibration loaded from file."];
        EvPrint [PStr "[BNO055] Calibration complete and saved."]]).
Proof.
  intros Hfile Hlen. split.
  - exact (load_calibration_wrong_size _ _ _ Hfile Hlen).
  - unfold calibrate_if_needed, bind at 1.
    rewrite (load_calibration_wrong_size _ _ _ Hfile Hlen).
    unfold_m. same_world.
Qed.

(** C2 (as the code has it). With a calibration file of exactly 22 bytes
    that the chip acknowledges, [calibrate_if_needed] writes those bytes to
    [REG_CALIBRATION_DATA] and returns without reading the status register,
    for any amount of fuel. With no calibration file it announces the manual
    calibration and runs the polling loop; when the loop ends and the chip
    hands out the coefficient bytes, these are stored in the file before the
    method returns. *)
Theorem calibrate_if_needed_spec fuel w :
  (forall data u d,
     fs w !! default_filename = Some data ->
     length data = 22%nat ->
     mem_write (PBuf data) I2C_ADDR REG_CALIBRATION_DATA (dev w)
       = (Ack u, d) ->
     calibrate_if_needed fuel w =
       (Returned tt,
        after w d
          [EvMemWrite (PBuf data) I2C_ADDR REG_CALIBRATION_DATA (Ack u);
           EvPrint [PStr "[BNO055] Calibration loaded from file."];
           EvPrint [PStr "[BNO055] Calibration complete and saved."]])) /\
  (fs w !! default_filename = None ->
   let w0 :=
     after w (dev w) [EvPrint [PStr "[BNO055] Needs to be done manually:"]] in
   calibrate_if_needed fuel w =
     (poll_until_done fuel ;;;
      save_calibration default_filename ;;;
      print [PStr "[BNO055] Calibration complete and saved."]) w0 /\
   forall w1 blob d,
     poll_until_done fuel w0 = (Returned tt, w1) ->
     mem_read 22 I2C_ADDR REG_CALIBRATION_DATA (dev w1) = (Ack blob, d) ->
     calibrate_if_needed fuel w =
       (Returned tt,
        set_fs (<[default_filename := blob]> (fs w1))
          (after w1 d
             [EvMemRead 22 I2C_ADDR REG_CALIBRATION_DATA (Ack blob);
              EvPrint [PStr "[BNO055] Calibration saved successfully."];
              EvPrint [PStr "[BNO055] Calibration complete and saved."]]))).
Proof.
  split.
  - intros data u d Hfile Hlen Hwrite.
    unfold calibrate_if_needed, bind at 1.
    rewrite (load_calibration_sized _ _ _ Hfile Hlen), Hwrite.
    unfold_m. same_world.
  - intros Hfile w0.
    assert (Heq : calibrate_if_needed fuel w =
      (poll_until_done fuel ;;;
       save_calibration default_filename ;;;
       print [PStr "[BNO055] Calibration complete and saved."]) w0).
    { unfold calibrate_if_needed, bind at 1.
      rewrite (load_calibration_absent _ _ Hfile). cbn [negb].
      fold w0. unfold bind.
      destruct (poll_until_done fuel w0) as [[[]|e|] w1]; try reflexivity. }
    split; [exact Heq|].
    intros w1 blob d Hpoll Hread. rewrite Heq.
    unfold bind at 1. rewrite Hpoll.
    unfold bind at 1. rewrite save_calibration_run, Hread.
    unfold_m. same_world.
Qed.

End ConvergenceLoop.

(** A 3-byte calibration file on the scripted bus, with no fuel at all. *)
Lemma wrong_size_file_counts_as_restored_witness :
  let w := boot [] {[ default_filename := [x01; x02; x03] ]} in
  load_calibration default_filename w =
    (Returned true,
     after w []
       [EvPrint [PStr "[ERROR] Invalid calibration data size."];
        EvPrint [PStr "[BNO055] Calibration loaded from file."]]) /\
  calibrate_if_needed 0 w =
    (Returned tt,
     after w []
       [EvPrint [PStr "[ERROR] Invalid calibration data size."];
        EvPrint [PStr "[BNO055] Calibration loaded from file."];
        EvPrint [PStr "[BNO055] Calibration complete and saved."]]).
Proof.
  apply (wrong_size_file_counts_as_restored 0
           (boot [] {[ default_filename := [x01; x02; x03] ]})
           [x01; x02; x03]).
  - vm_compute. reflexivity.
  - simpl. lia.
Defined.

(** Both paths on the scripted bus: a 22-byte file with no fuel, and no file
    with a chip that reports [(0,3,3,3)] at once. *)
Lemma calibrate_if_needed_spec_witness :
  (let w := boot [] {[ default_filename := replicate 22 x07 ]} in
   calibrate_if_needed 0 w =
     (Returned tt,
      after w []
        [EvMemWrite (PBuf (replicate 22 x07)) I2C_ADDR REG_CALIBRATION_DATA
           (Ack tt);
         EvPrint [PStr "[BNO055] Calibration loaded from file."];
         EvPrint [PStr "[BNO055] Calibration complete and saved."]])) /\
  (let w := boot [Ack [x3f]; Ack [x3f]; Ack (replicate 22 x07)] ∅ in
   calibrate_if_needed 1 w =
     (Returned tt,
      set_fs {[ default_filename := replicate 22 x07 ]}
        (after w []
           [EvPrint [PStr "[BNO055] Needs to be done manually:"];
            EvMemRead 1 I2C_ADDR REG_CALIB_STAT (Ack [x3f]);
            EvMemRead 1 I2C_ADDR REG_CALIB_STAT (Ack [x3f]);
            EvPrint [PStr "Calibrating..."; PStatus (0, 3, 3, 3)];
            EvDelay 500;
            EvMemRead 22 I2C_ADDR REG_CALIBRATION_DATA
              (Ack (replicate 22 x07));
            EvPrint [PStr "[BNO055] Calibration saved successfully."];
            EvPrint [PStr "[BNO055] Calibration complete and saved."]]))).
Proof.
  split.
  - apply (proj1 (calibrate_if_needed_spec 0
                    (boot [] {[ default_filename := replicate 22 x07 ]}))
             (replicate 22 x07) tt []).
    + vm_compute. reflexivity.
    + reflexivity.
    + reflexivity.
  - intros w.
    destruct (proj2 (calibrate_if_needed_spec 1 w)) as [_ Hearn].
    + reflexivity.
    + exact (Hearn _ (replicate 22 x07) [] eq_refl eq_refl).
Defined.

(** C2 as stated fails: here the calibration file exists, the method
    returns, and no write reaches the chip. *)
Lemma existing_file_not_written_to_device :
  let w := boot [] {[ default_filename := [x01; x02; x03] ]} in
  fs w !! default_filename = Some [x01; x02; x03] /\
  (calibrate_if_needed 0 w).1 = Returned tt /\
  existsb is_mem_write (trace (calibrate_if_needed 0 w).2) = false.
Proof. vm_compute. repeat split. Qed.

(** ** The sampling task *)

Section SamplingTask.

Context {Dev : Type} `{Laws : I2CLaws Dev}.
Implicit Types (w : world Dev) (d : Dev) (e : exn) (g : generator).

Lemma task_cycle_run self shares w :
  match mem_read 6 I2C_ADDR REG_EULER_ANGLES (dev w) with
  | (Ack raw, d) =>
      exists a0 a1 b0 b1 c0 c1,
        raw = [a0; a1; b0; b1; c0; c1] /\
        task_cycle self shares w =
          (Returned (state self),
           set_slots (<[shares.1 := int16_le a0 a1]> (slots w))
             (after w d
                (cycle_events self shares raw (int16_le a0 a1)
                   (slots w shares.2) (slots w shares.1))))
  | (Nak e, d) =>
      task_cycle self shares w =
        (Raised e,
         after w d
           [EvGcCollect; EvMemRead 6 I2C_ADDR REG_EULER_ANGLES (Nak e)])
  end.
Proof.
  destruct shares as [heading_share target_heading].
  pose proof (read_hhh_run REG_EULER_ANGLES (log EvGcCollect w)) as Hread.
  change (dev (log EvGcCollect w)) with (dev w) in Hread.
  fold get_euler_angles in Hread.
  assert (Hstart : forall k : Z * Z * Z -> M Dev Z,
            (gc_collect ;;; angles <- get_euler_angles ;; k angles) w =
            (angles <- get_euler_angles ;; k angles) (log EvGcCollect w))
    by reflexivity.
  destruct (mem_read 6 I2C_ADDR REG_EULER_ANGLES (dev w)) as [[raw|e] d].
  - destruct Hread as (a0 & a1 & b0 & b1 & c0 & c1 & Hraw & Hrun).
    exists a0, a1, b0, b1, c0, c1. split; [exact Hraw|].
    unfold task_cycle. rewrite Hstart. unfold bind at 1.
    rewrite Hrun. unfold cycle_events.
    destruct (debug self); unfold_m; same_world.
  - unfold task_cycle. rewrite Hstart. unfold bind at 1.
    rewrite Hread. same_world.
Qed.

Lemma cycle_ok_put_then_yield self shares block :
  cycle_ok self shares block ->
  put_then_yield shares.1 (state self) block.
Proof.
  intros (a0 & a1 & b0 & b1 & c0 & c1 & target & measured & ->).
  unfold cycle_events, put_then_yield.
  eexists _, (int16_le a0 a1). rewrite !app_assoc. split; [reflexivity|].
  by destruct (debug self).
Qed.

Lemma init_state dbg prof fuel (w0 : world Dev) self w :
  init dbg prof fuel w0 = (Returned self, w) -> state self = S1_ANGLES.
Proof.
  unfold init, bind, print, gc_collect, emit, ret.
  destruct (initialize_imu _) as [[[]|e|] w1]; try discriminate.
  destruct (calibrate_if_needed fuel w1) as [[[]|e|] w2]; try discriminate.
  intros Heq. injection Heq as <- _. reflexivity.
Qed.

Lemma run_task_cycles n :
  forall g w,
    gen_status g <> GenClosed ->
    exists blocks,
      Forall (cycle_ok (gen_self g) (gen_shares g)) blocks /\
      match run_task n g w with
      | (Returned vs, g', w') =>
          length blocks = n /\
          vs = repeat (state (gen_self g)) n /\
          trace w' = trace w ++ concat blocks
      | (Raised e, g', w') =>
          (length blocks < n)%nat /\
          trace w' =
            trace w ++ concat blocks ++
            [EvGcCollect; EvMemRead 6 I2C_ADDR REG_EULER_ANGLES (Nak e)]
      | (OutOfFuel, _, _) => False
      end.
Proof.
  induction n as [|n IH]; intros g w Hlive.
  - exists []. split; [constructor|]. simpl. by rewrite app_nil_r.
  - assert (Hnext : gen_next g w =
      match task_cycle (gen_self g) (gen_shares g) w with
      | (Returned v, w') => (Returned v, with_status GenSuspended g, w')
      | (r, w') => (r, with_status GenClosed g, w')
      end).
    { unfold gen_next. by destruct (gen_status g). }
    simpl run_task. rewrite Hnext. clear Hnext.
    pose proof (task_cycle_run (gen_self g) (gen_shares g) w) as Hcycle.
    destruct (mem_read 6 I2C_ADDR REG_EULER_ANGLES (dev w)) as [[raw|e] d].
    + destruct Hcycle as (a0 & a1 & b0 & b1 & c0 & c1 & -> & ->).
      match goal with
      | |- context [run_task n ?g1 ?w1] =>
          destruct (IH g1 w1) as (blocks & Hok & Hrun); [discriminate|];
          destruct (run_task n g1 w1) as [[[vs|e|] g'] w']
      end; simpl in Hok, Hrun.
      * destruct Hrun as (Hlen & -> & Htrace).
        exists (cycle_events (gen_self g) (gen_shares g)
                  [a0; a1; b0; b1; c0; c1] (int16_le a0 a1)
                  (slots w (gen_shares g).2) (slots w (gen_shares g).1)
                :: blocks).
        split.
        { constructor; [|exact Hok]. by repeat eexists. }
        cbn [length concat repeat]. split; [by rewrite Hlen|].
        split; [reflexivity|].
        rewrite Htrace. cbn [trace set_slots after]. by rewrite <- !app_assoc.
      * destruct Hrun as (Hlen & Htrace).
        exists (cycle_events (gen_self g) (gen_shares g)
                  [a0; a1; b0; b1; c0; c1] (int16_le a0 a1)
                  (slots w (gen_shares g).2) (slots w (gen_shares g).1)
                :: blocks).
        split.
        { constructor; [|exact Hok]. by repeat eexists. }
        cbn [length concat]. split; [lia|].
        rewrite Htrace. cbn [trace set_slots after]. by rewrite <- !app_assoc.
      * contradiction.
    + rewrite Hcycle. exists []. split; [constructor|].
      simpl. split; [lia|reflexivity].
Qed.

(** One resumption of a live task, by the answer of the chip. *)
Lemma gen_next_run g w :
  gen_status g <> GenClosed ->
  gen_next g w =
    match mem_read 6 I2C_ADDR REG_EULER_ANGLES (dev w) with
    | (Ack raw, d) =>
        (Returned (state (gen_self g)), with_status GenSuspended g,
         set_slots (<[(gen_shares g).1 := heading_of raw]> (slots w))
           (after w d
              (cycle_events (gen_self g) (gen_shares g) raw (heading_of raw)
                 (slots w (gen_shares g).2) (slots w (gen_shares g).1))))
    | (Nak e, d) =>
        (Raised e, with_status GenClosed g,
         after w d
           [EvGcCollect; EvMemRead 6 I2C_ADDR REG_EULER_ANGLES (Nak e)])
    end.
Proof.
  intros Hlive.
  assert (Hnext : gen_next g w =
    match task_cycle (gen_self g) (gen_shares g) w with
    | (Returned v, w') => (Returned v, with_status GenSuspended g, w')
    | (r, w') => (r, with_status GenClosed g, w')
    end).
  { unfold gen_next. by destruct (gen_status g). }
  rewrite Hnext.
  pose proof (task_cycle_run (gen_self g) (gen_shares g) w) as Hcycle.
  destruct (mem_read 6 I2C_ADDR REG_EULER_ANGLES (dev w)) as [[raw|e] d].
  - destruct Hcycle as (a0 & a1 & b0 & b1 & c0 & c1 & -> & ->). reflexivity.
  - by rewrite Hcycle.
Qed.

(** [n] resumptions of a live task, by the answers of the chip. *)
Lemma run_task_run n :
  forall g w,
    gen_status g <> GenClosed ->
    run_task n g w =
      let '(raws, failure, d) := euler_answers n (dev w) in
      let w' :=
        set_slots (cycles_slots (gen_shares g) (slots w) raws)
          (after w d
             (cycles_trace (gen_self g) (gen_shares g) (slots w) raws ++
              match failure with
              | Some e =>
                  [EvGcCollect;
                   EvMemRead 6 I2C_ADDR REG_EULER_ANGLES (Nak e)]
              | None => []
              end)) in
      match failure, n with
      | Some e, _ => (Raised e, with_status GenClosed g, w')
      | None, O => (Returned [], g, w')
      | None, S _ =>
          (Returned (repeat (state (gen_self g)) n),
           with_status GenSuspended g, w')
      end.
Proof.
  induction n as [|n IH]; intros g w Hlive.
  - destruct w as [d0 f0 s0 t0]. unfold set_slots, after. simpl.
    by rewrite app_nil_r.
  - simpl run_task. rewrite (gen_next_run g w Hlive).
    simpl euler_answers.
    destruct (mem_read 6 I2C_ADDR REG_EULER_ANGLES (dev w)) as [[raw|e] d];
      [|simpl; f_equal; same_world].
    rewrite IH by discriminate.
    cbn [dev slots set_slots after gen_self gen_shares with_status].
    destruct (euler_answers n d) as [[raws failure] d'].
    cbn [cycles_slots cycles_trace].
    destruct failure as [e|]; [|destruct n as [|n]];
      cbn [repeat]; f_equal; try reflexivity;
      unfold set_slots, after; cbn [dev fs slots trace];
      rewrite <- ?app_assoc; reflexivity.
Qed.

(** C8. An object built by the constructor has [state = S1_ANGLES]. For
    such an object and a live task:

    - one resumption reads the six Euler bytes from the chip and, when the
      chip answers [raw], puts the heading decoded from [raw] into the
      heading slot, which then holds it, yields [S1_ANGLES] and leaves the
      task suspended; when the read fails it raises, puts nothing and
      yields nothing;
    - [n] resumptions do this [n] times on the answers the chip gives one
      after the other ([euler_answers]): the world they leave has the
      headings put in order into the heading slot and the trace of these
      cycles, and every yielded value is [S1_ANGLES];
    - that trace is a sequence of blocks, one per completed cycle, each of
      the form: collect, read, optional debug line, put of the heading,
      yield. So every completed cycle suspends exactly once, as its last
      action and right after the put ([put_then_yield]). *)
Theorem task_publishes_then_yields_once :
  (forall dbg prof fuel (w0 : world Dev) self w,
     init dbg prof fuel w0 = (Returned self, w) -> state self = S1_ANGLES) /\
  (forall g w,
     gen_status g <> GenClosed ->
     state (gen_self g) = S1_ANGLES ->
     gen_next g w =
       match mem_read 6 I2C_ADDR REG_EULER_ANGLES (dev w) with
       | (Ack raw, d) =>
           (Returned S1_ANGLES, with_status GenSuspended g,
            set_slots (<[(gen_shares g).1 := heading_of raw]> (slots w))
              (after w d
                 ([EvGcCollect;
                   EvMemRead 6 I2C_ADDR REG_EULER_ANGLES (Ack raw)] ++
                  (if debug (gen_self g)
                   then [EvPrint [PStr "Target Heading: ";
                                  PNum (slots w (gen_shares g).2);
                                  PStr " | Measured Heading: ";
                                  PNum (slots w (gen_shares g).1)]]
                   else []) ++
                  [EvSharePut (gen_shares g).1 (heading_of raw);
                   EvYield S1_ANGLES])))
       | (Nak e, d) =>
           (Raised e, with_status GenClosed g,
            after w d
              [EvGcCollect; EvMemRead 6 I2C_ADDR REG_EULER_ANGLES (Nak e)])
       end /\
     match mem_read 6 I2C_ADDR REG_EULER_ANGLES (dev w) with
     | (Ack raw, d) =>
         slots (gen_next g w).2 (gen_shares g).1 = heading_of raw /\
         exists a0 a1 b0 b1 c0 c1,
           raw = [a0; a1; b0; b1; c0; c1] /\ heading_of raw = int16_le a0 a1
     | (Nak e, d) => slots (gen_next g w).2 = slots w
     end) /\
  (forall n g w,
     gen_status g <> GenClosed ->
     state (gen_self g) = S1_ANGLES ->
     run_task n g w =
       let '(raws, failure, d) := euler_answers n (dev w) in
       let w' :=
         set_slots (cycles_slots (gen_shares g) (slots w) raws)
           (after w d
              (cycles_trace (gen_self g) (gen_shares g) (slots w) raws ++
               match failure with
               | Some e =>
                   [EvGcCollect;
                    EvMemRead 6 I2C_ADDR REG_EULER_ANGLES (Nak e)]
               | None => []
               end)) in
       match failure, n with
       | Some e, _ => (Raised e, with_status GenClosed g, w')
       | None, O => (Returned [], g, w')
       | None, S _ =>
           (Returned (repeat S1_ANGLES n), with_status GenSuspended g, w')
       end) /\
  (forall n g w,
     gen_status g <> GenClosed ->
     state (gen_self g) = S1_ANGLES ->
     exists blocks,
       Forall (cycle_ok (gen_self g) (gen_shares g)) blocks /\
       Forall (put_then_yield (gen_shares g).1 S1_ANGLES) blocks /\
       match run_task n g w with
       | (Returned vs, g', w') =>
           length blocks = n /\
           vs = repeat S1_ANGLES n /\
           trace w' = trace w ++ concat blocks
       | (Raised e, g', w') =>
           (length blocks < n)%nat /\
           trace w' =
             trace w ++ concat blocks ++
             [EvGcCollect; EvMemRead 6 I2C_ADDR REG_EULER_ANGLES (Nak e)]
       | (OutOfFuel, _, _) => False
       end).
Proof.
  split; [exact init_state|]. split; [|split].
  - intros g w Hlive Hstate.
    rewrite (gen_next_run g w Hlive), <- Hstate.
    pose proof (mem_read_length 6 I2C_ADDR REG_EULER_ANGLES (dev w)) as Hlen.
    destruct (mem_read 6 I2C_ADDR REG_EULER_ANGLES (dev w)) as [[raw|e] d].
    + split; [reflexivity|]. split.
      * cbn [snd slots set_slots]. apply fn_lookup_insert.
      * destruct (six_bytes raw (Hlen raw d eq_refl))
          as (a0 & a1 & b0 & b1 & c0 & c1 & ->).
        by exists a0, a1, b0, b1, c0, c1.
    + split; reflexivity.
  - intros n g w Hlive Hstate.
    rewrite (run_task_run n g w Hlive), <- Hstate. reflexivity.
  - intros n g w Hlive Hstate.
    destruct (run_task_cycles n g w Hlive) as (blocks & Hok & Hrun).
    exists blocks. split; [exact Hok|]. split.
    + rewrite <- Hstate.
      revert Hok. apply List.Forall_impl. apply cycle_ok_put_then_yield.
    + by rewrite <- Hstate.
Qed.

End SamplingTask.

(** Two resumptions on the scripted bus, with the debug line on: the chip
    answers a heading of 1 and then a heading of 5. *)
Lemma task_publishes_then_yields_once_witness :
  let g := task (mkBNO055 false S1_ANGLES true) (0%nat, 1%nat) in
  let raw1 := [x01; x00; x02; x00; xff; xff] in
  let raw2 := [x05; x00; x00; x00; x00; x00] in
  let w := boot [Ack raw1; Ack raw2] ∅ in
  slots (gen_next g w).2 0%nat = 1 /\
  run_task 2 g w =
    (Returned [S1_ANGLES; S1_ANGLES], with_status GenSuspended g,
     set_slots (cycles_slots (0%nat, 1%nat) (slots w) [raw1; raw2])
       (after w []
          (cycles_trace (gen_self g) (0%nat, 1%nat) (slots w) [raw1; raw2]
           ++ []))) /\
  slots (run_task 2 g w).2 0%nat = 5 /\
  exists blocks,
    Forall (cycle_ok (gen_self g) (gen_shares g)) blocks /\
    Forall (put_then_yield (gen_shares g).1 S1_ANGLES) blocks /\
    length blocks = 2%nat /\
    trace (run_task 2 g w).2 = concat blocks.
Proof.
  intros g raw1 raw2 w.
  assert (Hlive : gen_status g <> GenClosed) by discriminate.
  destruct (@task_publishes_then_yields_once mock_dev mock_bus mock_bus_laws)
    as (_ & Hone & Hmany & Hblocks).
  split; [exact (proj1 (proj2 (Hone g w Hlive eq_refl)))|].
  pose proof (Hmany 2%nat g w Hlive eq_refl) as Hrun.
  split; [exact Hrun|].
  split; [rewrite Hrun; reflexivity|].
  destruct (Hblocks 2%nat g w Hlive eq_refl)
    as (blocks & Hok & Hyield & Htrace).
  exists blocks. split; [exact Hok|]. split; [exact Hyield|].
  rewrite Hrun in Htrace. destruct Htrace as (Hlen & _ & Htrace).
  split; [exact Hlen|]. rewrite Hrun. exact Htrace.
Defined.

(** ** What the task leaves alone *)

Section TaskFrame.

Context {Dev : Type} `{Bus : I2C Dev}.
Implicit Types (w : world Dev) (d : Dev) (e : exn) (g : generator).

Lemma resumption_frame_refl g w : resumption_frame g w g w.
Proof.
  repeat split. exists []. by rewrite app_nil_r.
Qed.

Lemma resumption_frame_trans g w g1 w1 g2 w2 :
  resumption_frame g w g1 w1 ->
  resumption_frame g1 w1 g2 w2 ->
  resumption_frame g w g2 w2.
Proof.
  intros (Hfs & Hself & Hsh & Hslots & evs & Htr & Hok)
         (Hfs' & Hself' & Hsh' & Hslots' & evs' & Htr' & Hok').
  rewrite Hsh in Hslots', Hok'.
  repeat split; try congruence.
  - intros s Hs. rewrite Hslots', Hslots; auto.
  - exists (evs ++ evs'). split.
    + rewrite Htr', Htr. by rewrite app_assoc.
    + rewrite forallb_app, Hok, Hok'. reflexivity.
Qed.

Lemma gen_next_frame g w :
  resumption_frame g w (gen_next g w).1.2 (gen_next g w).2.
Proof.
  unfold gen_next, task_cycle, get_euler_angles.
  destruct g as [self [heading_share target_heading] status].
  cbn [gen_status gen_self gen_shares].
  destruct status; try apply resumption_frame_refl;
    unfold_m; simpl;
    destruct (mem_read 6 I2C_ADDR REG_EULER_ANGLES (dev w)) as [[raw|e] d];
    simpl;
    try (destruct (struct_unpack_hhh raw) as [[[heading pitch] roll]|e];
         simpl);
    try (destruct (debug self); simpl);
    (split; [reflexivity|]; split; [reflexivity|]; split; [reflexivity|];
     split;
     [intros s Hs; simpl; first [reflexivity | by apply fn_lookup_insert_ne]
     |simpl; rewrite <- ?app_assoc; simpl; eexists; split; [reflexivity|];
      simpl; rewrite ?Nat.eqb_refl; reflexivity]).
Qed.

(** C9. However often the task is resumed and whatever the bus answers,
    the calibration file and every other file stay as they were, the
    object is unchanged, and the actions of the task contain no bus write
    at all (so none to the mode register or to the coefficient
    registers): its bus calls are reads of the Euler-angle register, and
    the only slot it changes is its heading slot. *)
Theorem task_never_touches_mode_or_calibration n g w :
  fs (run_task n g w).2 = fs w /\
  gen_self (run_task n g w).1.2 = gen_self g /\
  (forall s : share,
     s <> (gen_shares g).1 -> slots (run_task n g w).2 s = slots w s) /\
  exists evs,
    trace (run_task n g w).2 = trace w ++ evs /\
    forallb (task_event_allowed (gen_shares g)) evs = true /\
    existsb is_mem_write evs = false.
Proof.
  assert (Hframe : resumption_frame g w (run_task n g w).1.2
                     (run_task n g w).2).
  { revert g w. induction n as [|n IH]; intros g w.
    - apply resumption_frame_refl.
    - simpl run_task.
      pose proof (gen_next_frame g w) as Hstep.
      destruct (gen_next g w) as [[[v|e|] g1] w1]; simpl in Hstep;
        try exact Hstep.
      pose proof (IH g1 w1) as Hrest.
      destruct (run_task n g1 w1) as [[[vs|e|] g2] w2]; simpl in Hrest |- *;
        exact (resumption_frame_trans _ _ _ _ _ _ Hstep Hrest). }
  destruct Hframe as (Hfs & Hself & _ & Hslots & evs & Htr & Hok).
  repeat split; try assumption.
  exists evs. repeat split; try assumption.
  clear Htr. induction evs as [|ev evs IHevs]; [reflexivity|].
  simpl in Hok |- *. apply andb_prop in Hok as [Hev Hevs].
  rewrite (IHevs Hevs). by destruct ev.
Qed.

End TaskFrame.

(** * Further properties of the driver *)

(** ** The calibration status register *)

Lemma decode_calib_status_recombine (b : byte) :
  let '(sys, gyro, accel, mag) := decode_calib_status (byte_val b) in
  64 * sys + 16 * gyro + 4 * accel + mag = byte_val b.
Proof. destruct b; reflexivity. Qed.

Section StatusRegister.

Context {Dev : Type} `{Laws : I2CLaws Dev}.
Implicit Types (w : world Dev) (d : Dev) (e : exn).

Lemma one_byte (raw : list byte) :
  length raw = 1%nat -> exists b, raw = [b].
Proof.
  destruct raw as [|b [|? ?]]; try discriminate. by exists b.
Qed.

Lemma get_calibration_status_run w :
  match mem_read 1 I2C_ADDR REG_CALIB_STAT (dev w) with
  | (Ack raw, d) =>
      exists b,
        raw = [b] /\
        get_calibration_status w =
          (Returned (decode_calib_status (byte_val b)),
           after w d [EvMemRead 1 I2C_ADDR REG_CALIB_STAT (Ack [b])])
  | (Nak e, d) =>
      get_calibration_status w =
        (Raised e, after w d [EvMemRead 1 I2C_ADDR REG_CALIB_STAT (Nak e)])
  end.
Proof.
  unfold get_calibration_status, bind. rewrite i2c_mem_read_run.
  destruct (mem_read 1 I2C_ADDR REG_CALIB_STAT (dev w)) as [[raw|e] d] eqn:Hr;
    [|reflexivity].
  destruct (one_byte raw (mem_read_length _ _ _ _ _ _ Hr)) as [b ->].
  exists b. split; reflexivity.
Qed.

(** X1. [get_calibration_status] makes one bus call, the read of one byte
    at [REG_CALIB_STAT], and raises what that read raises. On success the
    four scores it returns are each between 0 and 3 and are the four 2-bit
    fields of the byte read, most significant first: they recombine to the
    byte as 64*sys + 16*gyro + 4*accel + mag. *)
Theorem get_calibration_status_fields w :
  match mem_read 1 I2C_ADDR REG_CALIB_STAT (dev w) with
  | (Ack raw, d) =>
      exists b sys gyro accel mag,
        raw = [b] /\
        get_calibration_status w =
          (Returned (sys, gyro, accel, mag),
           after w d [EvMemRead 1 I2C_ADDR REG_CALIB_STAT (Ack raw)]) /\
        0 <= sys <= 3 /\ 0 <= gyro <= 3 /\ 0 <= accel <= 3 /\ 0 <= mag <= 3 /\
        64 * sys + 16 * gyro + 4 * accel + mag = byte_val b
  | (Nak e, d) =>
      get_calibration_status w =
        (Raised e, after w d [EvMemRead 1 I2C_ADDR REG_CALIB_STAT (Nak e)])
  end.
Proof.
  pose proof (get_calibration_status_run w) as Hrun.
  destruct (mem_read 1 I2C_ADDR REG_CALIB_STAT (dev w)) as [[raw|e] d];
    [|exact Hrun].
  destruct Hrun as (b & -> & Hrun).
  pose proof (decode_calib_status_range (byte_val b)) as Hrange.
  pose proof (decode_calib_status_recombine b) as Hsum.
  destruct (decode_calib_status (byte_val b)) as [[[sys gyro] accel] mag].
  exists b, sys, gyro, accel, mag.
  destruct Hrange as (? & ? & ? & ?). repeat split; try assumption; lia.
Qed.

End StatusRegister.

(** The status byte [0x9E] on the scripted bus. *)
Lemma get_calibration_status_fields_witness :
  let w := boot [Ack [x9e]] ∅ in
  exists b sys gyro accel mag,
    [x9e] = [b] /\
    get_calibration_status w =
      (Returned (sys, gyro, accel, mag),
       after w [] [EvMemRead 1 I2C_ADDR REG_CALIB_STAT (Ack [x9e])]) /\
    0 <= sys <= 3 /\ 0 <= gyro <= 3 /\ 0 <= accel <= 3 /\ 0 <= mag <= 3 /\
    64 * sys + 16 * gyro + 4 * accel + mag = byte_val b.
Proof. exact (get_calibration_status_fields (boot [Ack [x9e]] ∅)). Defined.

(** ** Raw orientation samples *)

Lemma byte_val_inj (a b : byte) : byte_val a = byte_val b -> a = b.
Proof.
  unfold byte_val. intros Heq. apply N2Z.inj in Heq.
  pose proof (Byte.of_to_N a) as Ha. rewrite Heq, Byte.of_to_N in Ha.
  by injection Ha.
Qed.

Lemma int16_le_inj (lo hi lo' hi' : byte) :
  int16_le lo hi = int16_le lo' hi' -> lo = lo' /\ hi = hi'.
Proof.
  intros Heq.
  pose proof (proj2 (int16_le_value lo hi)) as H1.
  pose proof (proj2 (int16_le_value lo' hi')) as H2.
  rewrite Heq, H2 in H1.
  pose proof (byte_val_range lo). pose proof (byte_val_range hi).
  pose proof (byte_val_range lo'). pose proof (byte_val_range hi').
  split; apply byte_val_inj; lia.
Qed.

(** X2. The triples returned by [get_euler_angles] and
    [get_angular_velocity] lose nothing of the six register bytes: two
    buffers that unpack to the same triple are the same buffer. A field is
    negative exactly when the top bit of its second byte is set. *)
Theorem raw_samples_are_lossless :
  (forall (raw raw' : list byte) (t : Z * Z * Z),
     struct_unpack_hhh raw = Ack t ->
     struct_unpack_hhh raw' = Ack t ->
     raw = raw') /\
  (forall lo hi : byte, int16_le lo hi < 0 <-> 128 <= byte_val hi).
Proof.
  split.
  - intros raw raw' t Hraw Hraw'.
    destruct raw as [|a0 [|a1 [|b0 [|b1 [|c0 [|c1 [|? ?]]]]]]];
      try discriminate Hraw.
    destruct raw' as [|a0' [|a1' [|b0' [|b1' [|c0' [|c1' [|? ?]]]]]]];
      try discriminate Hraw'.
    simpl in Hraw, Hraw'. rewrite <- Hraw in Hraw'.
    injection Hraw' as Ha Hb Hc.
    apply int16_le_inj in Ha as [-> ->].
    apply int16_le_inj in Hb as [-> ->].
    apply int16_le_inj in Hc as [-> ->].
    reflexivity.
  - intros lo hi. unfold int16_le.
    pose proof (byte_val_range lo) as Hlo.
    pose proof (byte_val_range hi) as Hhi.
    rewrite lor_shiftl_8 by exact Hlo.
    destruct (Z.ltb_spec (byte_val lo + 256 * byte_val hi) 32768); lia.
Qed.

(** The buffer of the example, against itself. *)
Lemma raw_samples_are_lossless_witness :
  [x01; x00; x02; x00; xff; xff] = [x01; x00; x02; x00; xff; xff] /\
  (forall lo hi : byte, int16_le lo hi < 0 <-> 128 <= byte_val hi).
Proof.
  split.
  - exact (proj1 raw_samples_are_lossless
             [x01; x00; x02; x00; xff; xff] [x01; x00; x02; x00; xff; xff]
             (1, 2, -1) eq_refl eq_refl).
  - exact (proj2 raw_samples_are_lossless).
Defined.

(** ** Saving the calibration *)

Section SavingCalibration.

Context {Dev : Type} `{Bus : I2C Dev}.
Implicit Types (w : world Dev) (d : Dev) (e : exn).

(** X3. When the read of the coefficients fails with an [Exception],
    [save_calibration] does not raise: it prints the failure and returns.
    The file was opened for writing before the read, so it is left empty,
    whatever it held before. *)
Theorem failed_save_leaves_empty_file (filename : string) w e d :
  mem_read 22 I2C_ADDR REG_CALIBRATION_DATA (dev w) = (Nak e, d) ->
  is_Exception e = true ->
  save_calibration filename w =
    (Returned tt,
     set_fs (<[filename := []]> (fs w))
       (after w d
          [EvMemRead 22 I2C_ADDR REG_CALIBRATION_DATA (Nak e);
           EvPrint [PStr "[ERROR] Failed to save calibration: "; PExc e]])) /\
  fs (save_calibration filename w).2 !! filename = Some [].
Proof.
  intros Hread Hexc.
  assert (Hrun := save_calibration_run filename w).
  rewrite Hread, Hexc in Hrun. rewrite Hrun. split; [reflexivity|].
  simpl. apply lookup_insert_eq.
Qed.

(** X4. Whatever the bus answers, [save_calibration] leaves every other
    file and every slot as it was, and its only bus call is the read of 22
    bytes at [REG_CALIBRATION_DATA]: it never writes to the chip. *)
Theorem save_calibration_frame (filename : string) w :
  (forall other : string,
     other <> filename ->
     fs (save_calibration filename w).2 !! other = fs w !! other) /\
  slots (save_calibration filename w).2 = slots w /\
  exists lines,
    trace (save_calibration filename w).2 =
      trace w ++
      EvMemRead 22 I2C_ADDR REG_CALIBRATION_DATA
        (mem_read 22 I2C_ADDR REG_CALIBRATION_DATA (dev w)).1 :: lines /\
    existsb is_bus_call lines = false.
Proof.
  rewrite save_calibration_run.
  destruct (mem_read 22 I2C_ADDR REG_CALIBRATION_DATA (dev w))
    as [[blob|e] d]; [|destruct (is_Exception e)]; simpl;
    (split; [intros other Hne; by apply lookup_insert_ne|];
     split; [reflexivity|]; eexists; split; reflexivity).
Qed.

End SavingCalibration.

(** A bus error while saving over a good calibration file. *)
Lemma failed_save_leaves_empty_file_witness :
  let w := boot [Nak (OSError 5)] {[ default_filename := replicate 22 x07 ]} in
  fs w !! default_filename = Some (replicate 22 x07) /\
  (save_calibration default_filename w).1 = Returned tt /\
  fs (save_calibration default_filename w).2 !! default_filename = Some [].
Proof.
  split; [vm_compute; reflexivity|].
  destruct (@failed_save_leaves_empty_file mock_dev mock_bus
              default_filename
              (boot [Nak (OSError 5)]
                 {[ default_filename := replicate 22 x07 ]})
              (OSError 5) [] eq_refl eq_refl) as [Hrun Hfile].
  split; [by rewrite Hrun | exact Hfile].
Defined.

(** ** The calibration wait, iteration by iteration *)

Section CalibrationWait.

Context {Dev : Type} `{Laws : I2CLaws Dev}.
Implicit Types (w : world Dev) (d : Dev) (e : exn).

(** One pass through the loop body, by the answers to its two reads. *)
Lemma poll_body_cases w :
  match mem_read 1 I2C_ADDR REG_CALIB_STAT (dev w) with
  | (Nak e, d) =>
      poll_body w =
        (Raised e, after w d [EvMemRead 1 I2C_ADDR REG_CALIB_STAT (Nak e)])
  | (Ack raw, d) =>
      exists b,
        raw = [b] /\
        match mem_read 1 I2C_ADDR REG_CALIB_STAT d with
        | (Nak e, d') =>
            poll_body w =
              (Raised e,
               after w d'
                 [EvMemRead 1 I2C_ADDR REG_CALIB_STAT (Ack [b]);
                  EvMemRead 1 I2C_ADDR REG_CALIB_STAT (Nak e)])
        | (Ack raw', d') =>
            exists shown,
              raw' = [shown] /\
              poll_body w =
                (Returned
                   (calibration_done (decode_calib_status (byte_val b))),
                 after w d' (poll_block b shown))
        end
  end.
Proof.
  pose proof (get_calibration_status_run w) as H1.
  destruct (mem_read 1 I2C_ADDR REG_CALIB_STAT (dev w)) as [[raw|e] d].
  - destruct H1 as (b & -> & H1). exists b. split; [reflexivity|].
    pose proof (get_calibration_status_run
                  (after w d [EvMemRead 1 I2C_ADDR REG_CALIB_STAT (Ack [b])]))
      as H2.
    change (dev (after w d _)) with d in H2.
    destruct (mem_read 1 I2C_ADDR REG_CALIB_STAT d) as [[raw'|e] d'].
    + destruct H2 as (shown & -> & H2). exists shown. split; [reflexivity|].
      unfold poll_body, bind at 1. rewrite H1.
      unfold bind at 1. rewrite H2. unfold_m. same_world.
    + unfold poll_body, bind at 1. rewrite H1.
      unfold bind at 1. rewrite H2. same_world.
  - unfold poll_body, bind at 1. by rewrite H1.
Qed.

(** X5. When the calibration wait returns, the trace it added is a
    sequence of complete iterations (status read, second status read,
    progress line showing the second read, delay of 500). The deciding
    first read of the last iteration has gyro + accel + mag = 9 and that
    of every earlier iteration has not; the last iteration still prints
    and waits 500 before the loop is left. The wait changes no file and no
    slot. *)
Theorem calibration_wait_postcondition fuel w w' :
  poll_until_done fuel w = (Returned tt, w') ->
  exists (earlier : list (byte * byte)) (b shown : byte),
    trace w' =
      trace w ++
      concat (map (fun p => poll_block p.1 p.2) earlier) ++
      poll_block b shown /\
    Forall (fun p =>
              calibration_done (decode_calib_status (byte_val p.1)) = false)
      earlier /\
    calibration_done (decode_calib_status (byte_val b)) = true /\
    (length earlier < fuel)%nat /\
    fs w' = fs w /\
    slots w' = slots w.
Proof.
  revert w w'. induction fuel as [|fuel IH]; intros w w' Hrun;
    [discriminate|].
  simpl in Hrun. unfold bind at 1 in Hrun.
  pose proof (poll_body_cases w) as Hbody.
  destruct (mem_read 1 I2C_ADDR REG_CALIB_STAT (dev w)) as [[raw|e] d];
    [|rewrite Hbody in Hrun; discriminate].
  destruct Hbody as (b & -> & Hbody).
  destruct (mem_read 1 I2C_ADDR REG_CALIB_STAT d) as [[raw'|e] d'];
    [|rewrite Hbody in Hrun; discriminate].
  destruct Hbody as (shown & -> & Hbody). rewrite Hbody in Hrun.
  destruct (calibration_done (decode_calib_status (byte_val b))) eqn:Hdone.
  - injection Hrun as <-. exists [], b, shown.
    split; [reflexivity|]. split; [constructor|]. split; [exact Hdone|].
    split; [simpl; lia|]. split; reflexivity.
  - apply IH in Hrun
      as (earlier & b' & shown' & Htr & Hnot & Hlast & Hlen & Hfs & Hsl).
    exists ((b, shown) :: earlier), b', shown'.
    repeat split; try assumption.
    + rewrite Htr. cbn [trace after map concat fst snd].
      by rewrite <- !app_assoc.
    + constructor; assumption.
    + simpl. lia.
Qed.

End CalibrationWait.

(** Two iterations on the scripted bus: the first deciding read is
    [(0,1,1,1)], the second [(0,3,3,3)]. *)
Lemma calibration_wait_postcondition_witness :
  let w := boot [Ack [x15]; Ack [x2a]; Ack [x3f]; Ack [x3f]] ∅ in
  exists (earlier : list (byte * byte)) (b shown : byte),
    trace (poll_until_done 2 w).2 =
      trace w ++
      concat (map (fun p => poll_block p.1 p.2) earlier) ++
      poll_block b shown /\
    Forall (fun p =>
              calibration_done (decode_calib_status (byte_val p.1)) = false)
      earlier /\
    calibration_done (decode_calib_status (byte_val b)) = true /\
    (length earlier < 2)%nat /\
    fs (poll_until_done 2 w).2 = fs w /\
    slots (poll_until_done 2 w).2 = slots w.
Proof.
  exact (@calibration_wait_postcondition mock_dev mock_bus mock_bus_laws 2
           (boot [Ack [x15]; Ack [x2a]; Ack [x3f]; Ack [x3f]] ∅) _ eq_refl).
Defined.

(** ** Failures on the way to a calibration *)

Section CalibrationFailures.

Context {Dev : Type} `{Bus : I2C Dev}.
Implicit Types (w : world Dev) (d : Dev) (e : exn).

Lemma wait_frame_refl w : wait_frame w w.
Proof. repeat split. exists []. by rewrite app_nil_r. Qed.

Lemma wait_frame_trans w w1 w2 :
  wait_frame w w1 -> wait_frame w1 w2 -> wait_frame w w2.
Proof.
  intros (Hfs & Hsl & evs & Htr & Hok) (Hfs' & Hsl' & evs' & Htr' & Hok').
  repeat split; try congruence.
  exists (evs ++ evs'). split.
  - rewrite Htr', Htr. by rewrite app_assoc.
  - by rewrite forallb_app, Hok, Hok'.
Qed.

Lemma poll_body_frame w : wait_frame w (poll_body w).2.
Proof.
  unfold poll_body, get_calibration_status; unfold_m.
  destruct (mem_read 1 I2C_ADDR REG_CALIB_STAT (dev w)) as [[[|b raw]|e] d];
    simpl;
    try (destruct (mem_read 1 I2C_ADDR REG_CALIB_STAT d)
           as [[[|b' raw']|e'] d']; simpl);
    (split; [reflexivity|]; split; [reflexivity|];
     eexists; split;
     [unfold log, set_dev; simpl; rewrite <- ?app_assoc; reflexivity
     |reflexivity]).
Qed.

Lemma poll_until_done_frame fuel w : wait_frame w (poll_until_done fuel w).2.
Proof.
  revert w. induction fuel as [|fuel IH]; intros w; [apply wait_frame_refl|].
  simpl. unfold bind.
  pose proof (poll_body_frame w) as Hbody.
  destruct (poll_body w) as [[[|]|e|] w1]; simpl in Hbody |- *;
    try exact Hbody.
  exact (wait_frame_trans _ _ _ Hbody (IH w1)).
Qed.

Lemma calibrate_if_needed_absent fuel w :
  fs w !! default_filename = None ->
  calibrate_if_needed fuel w =
    (poll_until_done fuel ;;;
     save_calibration default_filename ;;;
     print [PStr "[BNO055] Calibration complete and saved."])
      (after w (dev w) [EvPrint [PStr "[BNO055] Needs to be done manually:"]]).
Proof.
  intros Hfile. unfold calibrate_if_needed, bind at 1.
  rewrite (load_calibration_absent _ _ Hfile). cbn [negb]. unfold bind.
  destruct (poll_until_done fuel _) as [[[]|e|] w1]; reflexivity.
Qed.

(** X6. With no calibration file, an exception raised inside the
    calibration wait (a failed status read) leaves [calibrate_if_needed]
    as that same exception. Up to then it has printed the manual
    calibration line and done only what the wait does (status reads,
    progress lines, delays): nothing is saved, the files are as before, no
    write has reached the chip and no completion line is printed. *)
Theorem wait_exception_aborts_calibration fuel w e w1 :
  fs w !! default_filename = None ->
  poll_until_done fuel
    (after w (dev w) [EvPrint [PStr "[BNO055] Needs to be done manually:"]])
    = (Raised e, w1) ->
  calibrate_if_needed fuel w = (Raised e, w1) /\
  fs w1 = fs w /\
  exists evs,
    trace w1 =
      trace w ++
      EvPrint [PStr "[BNO055] Needs to be done manually:"] :: evs /\
    forallb wait_event_allowed evs = true.
Proof.
  intros Hfile Hpoll. split.
  - rewrite (calibrate_if_needed_absent _ _ Hfile). unfold bind at 1.
    by rewrite Hpoll.
  - pose proof (poll_until_done_frame fuel
        (after w (dev w)
           [EvPrint [PStr "[BNO055] Needs to be done manually:"]])) as Hq.
    rewrite Hpoll in Hq. destruct Hq as (Hfs & _ & evs & Htr & Hok).
    split; [exact Hfs|].
    exists evs. split; [|exact Hok].
    simpl in Htr. by rewrite Htr, <- app_assoc.
Qed.

End CalibrationFailures.

(** The first status read fails on the scripted bus. *)
Lemma wait_exception_aborts_calibration_witness :
  let w := boot [Nak (OSError 5)] ∅ in
  (calibrate_if_needed 1 w).1 = Raised (OSError 5) /\
  fs (calibrate_if_needed 1 w).2 = fs w.
Proof.
  edestruct (@wait_exception_aborts_calibration mock_dev mock_bus 1
               (boot [Nak (OSError 5)] ∅) (OSError 5))
    as (Hrun & Hfs & _); [reflexivity | reflexivity |].
  simpl. rewrite Hrun. split; [reflexivity|exact Hfs].
Defined.

(** ** From one boot to the next *)

Section AcrossBoots.

Context {Dev : Type} `{Laws : I2CLaws Dev}.
Implicit Types (w : world Dev) (d : Dev) (e : exn).

(** X7. When the wait has converged but the read of the coefficients then
    fails with an [Exception], [calibrate_if_needed] still returns
    normally and still prints the line "Calibration complete and saved",
    right after the line that reports the failed save; the calibration
    file it leaves is empty. *)
Theorem completion_reported_when_save_fails fuel w w1 e d :
  fs w !! default_filename = None ->
  poll_until_done fuel
    (after w (dev w) [EvPrint [PStr "[BNO055] Needs to be done manually:"]])
    = (Returned tt, w1) ->
  mem_read 22 I2C_ADDR REG_CALIBRATION_DATA (dev w1) = (Nak e, d) ->
  is_Exception e = true ->
  calibrate_if_needed fuel w =
    (Returned tt,
     set_fs (<[default_filename := []]> (fs w1))
       (after w1 d
          [EvMemRead 22 I2C_ADDR REG_CALIBRATION_DATA (Nak e);
           EvPrint [PStr "[ERROR] Failed to save calibration: "; PExc e];
           EvPrint [PStr "[BNO055] Calibration complete and saved."]])).
Proof.
  intros Hfile Hpoll Hread Hexc.
  rewrite (calibrate_if_needed_absent _ _ Hfile).
  unfold bind at 1. rewrite Hpoll.
  unfold bind at 1. rewrite save_calibration_run, Hread, Hexc.
  unfold_m. same_world.
Qed.

(** X8. After a save that failed with an [Exception], the empty file it
    left counts as a stored calibration: the next [calibrate_if_needed]
    returns for any amount of fuel without a single bus call, so the chip
    is neither given coefficients nor waited for. *)
Theorem failed_save_disables_next_calibration fuel w e d :
  mem_read 22 I2C_ADDR REG_CALIBRATION_DATA (dev w) = (Nak e, d) ->
  is_Exception e = true ->
  let w1 := (save_calibration default_filename w).2 in
  calibrate_if_needed fuel w1 =
    (Returned tt,
     after w1 (dev w1)
       [EvPrint [PStr "[ERROR] Invalid calibration data size."];
        EvPrint [PStr "[BNO055] Calibration loaded from file."];
        EvPrint [PStr "[BNO055] Calibration complete and saved."]]).
Proof.
  intros Hread Hexc w1.
  assert (Hfile : fs w1 !! default_filename = Some []).
  { subst w1. rewrite save_calibration_run, Hread, Hexc. simpl.
    apply lookup_insert_eq. }
  unfold calibrate_if_needed, bind at 1.
  rewrite (load_calibration_wrong_size _ _ [] Hfile) by (simpl; lia).
  unfold_m. same_world.
Qed.

(** X9. A calibration that was earned is replayed at the next boot: when
    the wait converges and the chip hands out its coefficients [blob],
    any later [calibrate_if_needed] on the world left behind makes exactly
    one bus call, the write of [blob] to [REG_CALIBRATION_DATA], and does not
    poll the status, for any amount of fuel. *)
Theorem earned_calibration_is_replayed fuel fuel' w w1 blob d :
  fs w !! default_filename = None ->
  poll_until_done fuel
    (after w (dev w) [EvPrint [PStr "[BNO055] Needs to be done manually:"]])
    = (Returned tt, w1) ->
  mem_read 22 I2C_ADDR REG_CALIBRATION_DATA (dev w1) = (Ack blob, d) ->
  let w2 := (calibrate_if_needed fuel w).2 in
  (calibrate_if_needed fuel w).1 = Returned tt /\
  fs w2 !! default_filename = Some blob /\
  calibrate_if_needed fuel' w2 =
    match mem_write (PBuf blob) I2C_ADDR REG_CALIBRATION_DATA d with
    | (Ack u, d') =>
        (Returned tt,
         after w2 d'
           [EvMemWrite (PBuf blob) I2C_ADDR REG_CALIBRATION_DATA (Ack u);
            EvPrint [PStr "[BNO055] Calibration loaded from file."];
            EvPrint [PStr "[BNO055] Calibration complete and saved."]])
    | (Nak e, d') =>
        (Raised e,
         after w2 d'
           [EvMemWrite (PBuf blob) I2C_ADDR REG_CALIBRATION_DATA (Nak e)])
    end.
Proof.
  intros Hfile Hpoll Hread w2.
  pose proof (mem_read_length _ _ _ _ _ _ Hread) as Hlen.
  assert (Hrun : calibrate_if_needed fuel w =
    (Returned tt,
     set_fs (<[default_filename := blob]> (fs w1))
       (after w1 d
          [EvMemRead 22 I2C_ADDR REG_CALIBRATION_DATA (Ack blob);
           EvPrint [PStr "[BNO055] Calibration saved successfully."];
           EvPrint [PStr "[BNO055] Calibration complete and saved."]]))).
  { rewrite (calibrate_if_needed_absent _ _ Hfile).
    unfold bind at 1. rewrite Hpoll.
    unfold bind at 1. rewrite save_calibration_run, Hread.
    unfold_m. same_world. }
  subst w2. rewrite Hrun. cbn [fst snd].
  split; [reflexivity|].
  split; [simpl; apply lookup_insert_eq|].
  unfold calibrate_if_needed, bind at 1.
  erewrite load_calibration_sized;
    [|simpl; apply lookup_insert_eq|exact Hlen].
  cbn [dev set_fs after].
  destruct (mem_write (PBuf blob) I2C_ADDR REG_CALIBRATION_DATA d)
    as [[u|e] d']; unfold_m; same_world.
Qed.

End AcrossBoots.

(** The wait converges at once and the read of the coefficients fails. *)
Lemma completion_reported_when_save_fails_witness :
  let w := boot [Ack [x3f]; Ack [x3f]; Nak (OSError 5)] ∅ in
  (calibrate_if_needed 1 w).1 = Returned tt /\
  fs (calibrate_if_needed 1 w).2 !! default_filename = Some [] /\
  trace (calibrate_if_needed 1 w).2 =
    [EvPrint [PStr "[BNO055] Needs to be done manually:"]] ++
    poll_block x3f x3f ++
    [EvMemRead 22 I2C_ADDR REG_CALIBRATION_DATA (Nak (OSError 5));
     EvPrint [PStr "[ERROR] Failed to save calibration: ";
              PExc (OSError 5)];
     EvPrint [PStr "[BNO055] Calibration complete and saved."]].
Proof.
  intros w. subst w.
  erewrite (@completion_reported_when_save_fails mock_dev mock_bus 1
              (boot [Ack [x3f]; Ack [x3f]; Nak (OSError 5)] ∅));
    [|reflexivity..].
  split; [reflexivity|]. split; [|reflexivity].
  vm_compute. reflexivity.
Defined.

(** A failed save over a good file, then the next boot with no fuel. *)
Lemma failed_save_disables_next_calibration_witness :
  let w := boot [Nak (OSError 5)] {[ default_filename := replicate 22 x07 ]} in
  let w1 := (save_calibration default_filename w).2 in
  calibrate_if_needed 0 w1 =
    (Returned tt,
     after w1 (dev w1)
       [EvPrint [PStr "[ERROR] Invalid calibration data size."];
        EvPrint [PStr "[BNO055] Calibration loaded from file."];
        EvPrint [PStr "[BNO055] Calibration complete and saved."]]).
Proof.
  exact (@failed_save_disables_next_calibration mock_dev mock_bus 0
           (boot [Nak (OSError 5)]
              {[ default_filename := replicate 22 x07 ]})
           (OSError 5) [] eq_refl eq_refl).
Defined.

(** Earning on the first boot, restoring on the second with no fuel. *)
Lemma earned_calibration_is_replayed_witness :
  let w := boot [Ack [x3f]; Ack [x3f]; Ack (replicate 22 x07)] ∅ in
  let w2 := (calibrate_if_needed 1 w).2 in
  (calibrate_if_needed 1 w).1 = Returned tt /\
  fs w2 !! default_filename = Some (replicate 22 x07) /\
  calibrate_if_needed 0 w2 =
    (Returned tt,
     after w2 []
       [EvMemWrite (PBuf (replicate 22 x07)) I2C_ADDR REG_CALIBRATION_DATA
          (Ack tt);
        EvPrint [PStr "[BNO055] Calibration loaded from file."];
        EvPrint [PStr "[BNO055] Calibration complete and saved."]]).
Proof.
  edestruct (@earned_calibration_is_replayed mock_dev mock_bus mock_bus_laws
               1 0
               (boot [Ack [x3f]; Ack [x3f]; Ack (replicate 22 x07)] ∅))
    as (Hrun & Hfile & Hnext); [reflexivity | reflexivity | reflexivity |].
  split; [exact Hrun|]. split; [exact Hfile|exact Hnext].
Defined.

(** ** What loading may do *)

Section LoadingCalibration.

Context {Dev : Type} `{Bus : I2C Dev}.
Implicit Types (w : world Dev) (d : Dev) (e : exn).

(** X10. Whatever the files hold and whatever the bus answers,
    [load_calibration] changes no file and no slot, never reads from the
    chip, and the only bus call it can make is the write of a buffer of
    exactly 22 bytes to [REG_CALIBRATION_DATA]. It returns [False] only
    when the file is missing, and then makes no bus call. *)
Theorem load_calibration_frame (filename : string) w :
  fs (load_calibration filename w).2 = fs w /\
  slots (load_calibration filename w).2 = slots w /\
  (exists evs,
     trace (load_calibration filename w).2 = trace w ++ evs /\
     forallb load_event_allowed evs = true) /\
  ((load_calibration filename w).1 = Returned false <->
   fs w !! filename = None) /\
  (fs w !! filename = None -> dev (load_calibration filename w).2 = dev w).
Proof.
  destruct (fs w !! filename) as [data|] eqn:Hfile.
  - destruct (decide (length data = 22%nat)) as [Hlen|Hlen].
    + rewrite (load_calibration_sized _ _ _ Hfile Hlen).
      destruct (mem_write (PBuf data) I2C_ADDR REG_CALIBRATION_DATA (dev w))
        as [[u|e] d]; simpl;
        (split; [reflexivity|]; split; [reflexivity|]; split;
         [eexists; split; [reflexivity|]; simpl; by rewrite Hlen
         |split; [split; discriminate|discriminate]]).
    + rewrite (load_calibration_wrong_size _ _ _ Hfile Hlen). simpl.
      split; [reflexivity|]. split; [reflexivity|]. split.
      * eexists. split; reflexivity.
      * split; [split; discriminate|discriminate].
  - rewrite (load_calibration_absent _ _ Hfile). simpl.
    split; [reflexivity|]. split; [reflexivity|]. split.
    + eexists. split; reflexivity.
    + split; [split; reflexivity|reflexivity].
Qed.

End LoadingCalibration.

(** ** The constructor *)

Section Constructor.

Context {Dev : Type} `{Bus : I2C Dev}.
Implicit Types (w : world Dev) (d : Dev) (e : exn).

Lemma initialize_imu_config_nak w e d :
  mem_write (PInt MODE_CONFIG) I2C_ADDR REG_OPR_MODE (dev w) = (Nak e, d) ->
  initialize_imu w =
    (Raised e,
     after w d
       (EvMemWrite (PInt MODE_CONFIG) I2C_ADDR REG_OPR_MODE (Nak e) ::
        if is_OSError e
        then [EvPrint [PStr "[ERROR] BNO055 cannot set mode"]]
        else [])).
Proof.
  intros Hcfg. unfold initialize_imu, bind at 1.
  by rewrite set_mode_run, Hcfg.
Qed.

Lemma initialize_imu_ndof_nak w u d e d' :
  mem_write (PInt MODE_CONFIG) I2C_ADDR REG_OPR_MODE (dev w) = (Ack u, d) ->
  mem_write (PInt MODE_NDOF) I2C_ADDR REG_OPR_MODE d = (Nak e, d') ->
  initialize_imu w =
    (Returned tt,
     after w d'
       ([EvMemWrite (PInt MODE_CONFIG) I2C_ADDR REG_OPR_MODE (Ack u);
         EvDelay 10;
         EvMemWrite (PInt MODE_NDOF) I2C_ADDR REG_OPR_MODE (Nak e)]
        ++ not_detected_report e)).
Proof.
  intros Hcfg Hndof. unfold initialize_imu, bind at 1.
  rewrite set_mode_run, Hcfg.
  unfold try_except at 1, bind at 1.
  rewrite set_mode_run; simpl dev. rewrite Hndof.
  unfold not_detected_report, any_exn.
  destruct (is_OSError e); unfold_m; same_world.
Qed.

(** X11. A failure of the very first bus call, the write of [MODE_CONFIG],
    is not covered by the [try] of [initialize_imu]: the constructor raises
    that exception after its opening line, builds no object, and does not
    go on to the fusion mode or to the calibration. *)
Theorem constructor_raises_when_config_write_fails dbg prof fuel w e d :
  mem_write (PInt MODE_CONFIG) I2C_ADDR REG_OPR_MODE (dev w) = (Nak e, d) ->
  init dbg prof fuel w =
    (Raised e,
     after w d
       (EvPrint [PStr "Initilizing IMU"] ::
        EvMemWrite (PInt MODE_CONFIG) I2C_ADDR REG_OPR_MODE (Nak e) ::
        if is_OSError e
        then [EvPrint [PStr "[ERROR] BNO055 cannot set mode"]]
        else [])).
Proof.
  intros Hcfg. unfold init, bind at 1, print at 1, emit.
  unfold bind at 1.
  rewrite (initialize_imu_config_nak _ e d) by exact Hcfg.
  destruct (is_OSError e); same_world.
Qed.

(** X12. A failure of the second mode write, to [MODE_NDOF], does not stop
    the constructor. With a 22-byte calibration file that the chip
    acknowledges, the constructor prints the not-detected report, restores
    the calibration and returns an object in state [S1_ANGLES] with the
    given flags, although the chip never entered the fusion mode. *)
Theorem constructor_completes_when_ndof_write_fails
    dbg prof fuel w u d e d' data u' d'' :
  mem_write (PInt MODE_CONFIG) I2C_ADDR REG_OPR_MODE (dev w) = (Ack u, d) ->
  mem_write (PInt MODE_NDOF) I2C_ADDR REG_OPR_MODE d = (Nak e, d') ->
  fs w !! default_filename = Some data ->
  length data = 22%nat ->
  mem_write (PBuf data) I2C_ADDR REG_CALIBRATION_DATA d' = (Ack u', d'') ->
  init dbg prof fuel w =
    (Returned {| profiler := prof; state := S1_ANGLES; debug := dbg |},
     after w d''
       ([EvPrint [PStr "Initilizing IMU"];
         EvMemWrite (PInt MODE_CONFIG) I2C_ADDR REG_OPR_MODE (Ack u);
         EvDelay 10;
         EvMemWrite (PInt MODE_NDOF) I2C_ADDR REG_OPR_MODE (Nak e)]
        ++ not_detected_report e ++
        [EvMemWrite (PBuf data) I2C_ADDR REG_CALIBRATION_DATA (Ack u');
         EvPrint [PStr "[BNO055] Calibration loaded from file."];
         EvPrint [PStr "[BNO055] Calibration complete and saved."];
         EvPrint [PStr "\Initilizing IMU"];
         EvGcCollect])).
Proof.
  intros Hcfg Hndof Hfile Hlen Hwrite.
  unfold init, bind at 1, print at 1, emit.
  unfold bind at 1.
  rewrite (initialize_imu_ndof_nak _ u d e d') by assumption.
  unfold bind at 1, calibrate_if_needed, bind at 1.
  rewrite (load_calibration_sized _ _ data) by assumption.
  cbn [dev after log]. rewrite Hwrite.
  unfold not_detected_report.
  destruct (is_OSError e); unfold_m; same_world.
Qed.

End Constructor.

(** A chip that answers nothing: the first write already fails. *)
Lemma constructor_raises_when_config_write_fails_witness :
  let w := boot [Nak (OSError 19)] ∅ in
  init true false 5 w =
    (Raised (OSError 19),
     after w []
       [EvPrint [PStr "Initilizing IMU"];
        EvMemWrite (PInt MODE_CONFIG) I2C_ADDR REG_OPR_MODE
          (Nak (OSError 19));
        EvPrint [PStr "[ERROR] BNO055 cannot set mode"]]).
Proof.
  exact (@constructor_raises_when_config_write_fails mock_dev mock_bus
           true false 5 (boot [Nak (OSError 19)] ∅) (OSError 19) []
           eq_refl).
Defined.

(** The fusion mode is refused, the stored calibration is accepted. *)
Lemma constructor_completes_when_ndof_write_fails_witness :
  let w := boot [Ack []; Nak (OSError 5)]
             {[ default_filename := replicate 22 x07 ]} in
  (init true false 0 w).1 =
    Returned {| profiler := false; state := S1_ANGLES; debug := true |}.
Proof.
  intros w. subst w.
  erewrite (@constructor_completes_when_ndof_write_fails mock_dev mock_bus
              true false 0
              (boot [Ack []; Nak (OSError 5)]
                 {[ default_filename := replicate 22 x07 ]})
              tt [Nak (OSError 5)] (OSError 5) [] (replicate 22 x07) tt []);
    [reflexivity | reflexivity | reflexivity | vm_compute; reflexivity
    | reflexivity | reflexivity].
Defined.

(** ** The task and the bus *)

Section TaskAndBus.

Context {Dev : Type} `{Bus : I2C Dev}.
Implicit Types (w : world Dev) (d : Dev) (e : exn) (g : generator).

Lemma gen_next_live g w :
  gen_status g <> GenClosed ->
  gen_next g w =
    match task_cycle (gen_self g) (gen_shares g) w with
    | (Returned v, w') => (Returned v, with_status GenSuspended g, w')
    | (r, w') => (r, with_status GenClosed g, w')
    end.
Proof. intros Hlive. unfold gen_next. by destruct (gen_status g). Qed.

(** X13. A failed read of the Euler angles ends the task for good. The
    resumption raises the exception of the bus, having published nothing
    (every slot is as before), and from then on every resumption raises
    [StopIteration] without any action: the task does not skip the cycle
    and try again. *)
Theorem bus_failure_ends_task g w e d :
  gen_status g <> GenClosed ->
  mem_read 6 I2C_ADDR REG_EULER_ANGLES (dev w) = (Nak e, d) ->
  gen_next g w =
    (Raised e, with_status GenClosed g,
     after w d [EvGcCollect; EvMemRead 6 I2C_ADDR REG_EULER_ANGLES (Nak e)]) /\
  forall n (w' : world Dev),
    run_task (S n) (with_status GenClosed g) w' =
      (Raised StopIteration, with_status GenClosed g, w').
Proof.
  intros Hlive Hread. split.
  - rewrite (gen_next_live _ _ Hlive).
    destruct (gen_shares g) as [heading_share target_heading].
    unfold task_cycle, get_euler_angles; unfold_m. simpl. rewrite Hread.
    simpl. f_equal. same_world.
  - intros n w'. reflexivity.
Qed.

(** X14. A completed cycle leaves the decoded heading in the heading slot
    and changes no other slot. With [debug] on, the line it prints shows
    the target slot and the heading slot as they were before this cycle's
    put, so the "Measured Heading" on the console is the heading of the
    previous cycle. *)
Theorem debug_line_shows_previous_heading g w a0 a1 b0 b1 c0 c1 d :
  gen_status g <> GenClosed ->
  debug (gen_self g) = true ->
  mem_read 6 I2C_ADDR REG_EULER_ANGLES (dev w)
    = (Ack [a0; a1; b0; b1; c0; c1], d) ->
  exists w',
    gen_next g w =
      (Returned (state (gen_self g)), with_status GenSuspended g, w') /\
    trace w' =
      trace w ++
      [EvGcCollect;
       EvMemRead 6 I2C_ADDR REG_EULER_ANGLES (Ack [a0; a1; b0; b1; c0; c1]);
       EvPrint [PStr "Target Heading: "; PNum (slots w (gen_shares g).2);
                PStr " | Measured Heading: ";
                PNum (slots w (gen_shares g).1)];
       EvSharePut (gen_shares g).1 (int16_le a0 a1);
       EvYield (state (gen_self g))] /\
    slots w' (gen_shares g).1 = int16_le a0 a1 /\
    (forall s : share, s <> (gen_shares g).1 -> slots w' s = slots w s).
Proof.
  intros Hlive Hdebug Hread.
  rewrite (gen_next_live _ _ Hlive).
  destruct (gen_shares g) as [heading_share target_heading].
  unfold task_cycle, get_euler_angles; unfold_m. simpl.
  rewrite Hread, Hdebug. simpl.
  eexists. split; [reflexivity|]. simpl. split.
  - rewrite <- !app_assoc. reflexivity.
  - split; [apply fn_lookup_insert|].
    intros s Hs. by apply fn_lookup_insert_ne.
Qed.

End TaskAndBus.

(** The second resumption fails on the scripted bus. *)
Lemma bus_failure_ends_task_witness :
  let g := with_status GenSuspended
             (task (mkBNO055 false S1_ANGLES false) (0%nat, 1%nat)) in
  let w := boot [Nak (OSError 110)] ∅ in
  gen_next g w =
    (Raised (OSError 110), with_status GenClosed g,
     after w []
       [EvGcCollect;
        EvMemRead 6 I2C_ADDR REG_EULER_ANGLES (Nak (OSError 110))]) /\
  forall n (w' : world mock_dev),
    run_task (S n) (with_status GenClosed g) w' =
      (Raised StopIteration, with_status GenClosed g, w').
Proof.
  apply (@bus_failure_ends_task mock_dev mock_bus).
  - discriminate.
  - reflexivity.
Defined.

(** A cycle with [debug] on, the heading slot holding 7 from before. *)
Lemma debug_line_shows_previous_heading_witness :
  let g := task (mkBNO055 false S1_ANGLES true) (0%nat, 1%nat) in
  let w := set_slots (<[0%nat := 7]> (fun _ => 0))
             (boot [Ack [x01; x00; x02; x00; xff; xff]] ∅) in
  exists w',
    gen_next g w = (Returned S1_ANGLES, with_status GenSuspended g, w') /\
    trace w' =
      [EvGcCollect;
       EvMemRead 6 I2C_ADDR REG_EULER_ANGLES
         (Ack [x01; x00; x02; x00; xff; xff]);
       EvPrint [PStr "Target Heading: "; PNum 0;
                PStr " | Measured Heading: "; PNum 7];
       EvSharePut 0 1;
       EvYield S1_ANGLES] /\
    slots w' 0%nat = 1 /\
    (forall s : share, s <> 0%nat -> slots w' s = slots w s).
Proof.
  assert (Hlive : gen_status
                    (task (mkBNO055 false S1_ANGLES true) (0%nat, 1%nat))
                  <> GenClosed) by discriminate.
  exact (@debug_line_shows_previous_heading mock_dev mock_bus
           (task (mkBNO055 false S1_ANGLES true) (0%nat, 1%nat))
           (set_slots (<[0%nat := 7]> (fun _ => 0))
              (boot [Ack [x01; x00; x02; x00; xff; xff]] ∅))
           x01 x00 x02 x00 xff xff [] Hlive eq_refl eq_refl).
Defined.
